(** * chistaticmiddleware: a static-file middleware for the chi router

    A shallow embedding of [static.go] (package [chistaticmiddleware]; the
    later package [static] is the same code with the fields renamed
    [Fs], [Root], [FilePrefix] and the constructor folded into [Handler]).

    The middleware is some fifteen lines of dispatch around functions of
    Go's standard library.  The small ones it calls are embedded here from
    their Go sources ([strings.HasPrefix], [strings.TrimPrefix],
    [time.Duration.Seconds], [fmt.Sprintf] with the verb %d, [http.Error],
    [http.NotFound], [http.StripPrefix], [Header.Set]); the two large ones,
    [fs.Sub] on an arbitrary file store and [http.FileServer], are the
    operations of a [Host] class, and the next handler of the chain is an
    argument.  Every call that leaves the middleware is recorded in a
    trace, which is what "invoked exactly once" is stated on. *)

From Stdlib Require Import ZArith String Ascii List Lia DecimalString.
From Stdlib Require Import Floats.SpecFloat.
From stdpp Require Import base strings gmap.

Open Scope string_scope.
Open Scope Z_scope.

(** ** Package [strings] *)

(** [s[n:]] for [n <= len(s)]. *)
Fixpoint slice_from (n : nat) (s : string) : string :=
  match n, s with
  | O, _ => s
  | S n', String _ s' => slice_from n' s'
  | S _, EmptyString => EmptyString
  end.

(** [func HasPrefix(s, prefix string) bool {
      return len(s) >= len(prefix) && s[:len(prefix)] == prefix }] *)
Definition strings_HasPrefix (s prefix : string) : bool :=
  (String.length prefix <=? String.length s)%nat
  && String.eqb (substring 0 (String.length prefix) s) prefix.

(** [func TrimPrefix(s, prefix string) string {
      if HasPrefix(s, prefix) { return s[len(prefix):] }; return s }] *)
Definition strings_TrimPrefix (s prefix : string) : string :=
  if strings_HasPrefix s prefix then slice_from (String.length prefix) s else s.

(** ** Errors

    Go's [error] values as far as [fs.Sub] produces them: [*fs.PathError]
    around a sentinel made by [errors.New]. *)
Inductive error : Type :=
| errorString (s : string)
| PathError (Op Path : string) (Err : error).

(** [func (e *PathError) Error() string {
      return e.Op + " " + e.Path + ": " + e.Err.Error() }] *)
Fixpoint Error (e : error) : string :=
  match e with
  | errorString s => s
  | PathError op path err => op ++ " " ++ path ++ ": " ++ Error err
  end.

Definition fs_ErrInvalid : error := errorString "invalid argument".

(** ** Package [time]: [Duration] is an [int64] count of nanoseconds *)

Definition Duration : Type := Z.
Definition Nanosecond : Duration := 1.
Definition Second : Duration := 1000000000 * Nanosecond.
Definition Hour : Duration := 3600 * Second.
Definition math_MaxInt64 : Z := 9223372036854775807.

(** IEEE 754 binary64, through the specification of the Standard Library. *)
Definition float64 : Type := spec_float.
Definition prec64 : Z := 53.
Definition emax64 : Z := 1024.

(** The conversion [float64(n)] of an integer: round to nearest, ties to
    even. *)
Definition float64_of_int (n : Z) : float64 :=
  binary_normalize prec64 emax64 n 0 false.

Definition float64_add (x y : float64) : float64 := SFadd prec64 emax64 x y.
Definition float64_div (x y : float64) : float64 := SFdiv prec64 emax64 x y.

(** The conversion [int(f)] of a float: the fraction is discarded
    (truncation towards zero).  For a value outside of [int] Go leaves the
    result to the implementation; amd64 gives the least [int64]. *)
Definition int_of_float64 (f : float64) : Z :=
  match f with
  | S754_zero _ => 0
  | S754_finite s m e =>
      let v := if 0 <=? e then Z.pos m * 2 ^ e
               else Z.quot (Z.pos m) (2 ^ (- e)) in
      if s then - v else v
  | _ => - math_MaxInt64 - 1
  end.

(** [func (d Duration) Seconds() float64 {
      sec := d / Second
      nsec := d % Second
      return float64(sec) + float64(nsec)/1e9 }]
    Go's [/] and [%] on integers truncate towards zero. *)
Definition Seconds (d : Duration) : float64 :=
  let sec := Z.quot d Second in
  let nsec := Z.rem d Second in
  float64_add (float64_of_int sec)
              (float64_div (float64_of_int nsec) (float64_of_int 1000000000)).

(** ** Package [fmt] *)

(** The verb %d on an [int]: decimal digits, a minus sign when negative. *)
Definition fmt_d (n : Z) : string := NilZero.string_of_int (Z.to_int n).

(** ** Package [net/http]: requests and response writers *)

Record URL : Type := mkURL {
  Path : string;
  RawPath : string;
  RawQuery : string
}.

Record Request : Type := mkRequest {
  Method : string;
  url : URL
}.

(** A [ResponseWriter] as a handler sees it: the header map, the status
    once it has been written, and the bytes of the body written so far. *)
Record ResponseWriter : Type := mkResponseWriter {
  Header : gmap string (list string);
  Code : option Z;
  Body : string
}.

Definition StatusOK : Z := 200.
Definition StatusNotFound : Z := 404.
Definition StatusInternalServerError : Z := 500.

(** [w.Header().Set(key, value)]: the key's values become the one value.
    (Go first puts the key in canonical MIME form; every key set below is
    canonical already.) *)
Definition Header_Set (key value : string) (w : ResponseWriter) : ResponseWriter :=
  {| Header := <[key := [value]]> (Header w); Code := Code w; Body := Body w |}.

(** [h.Del(key)] *)
Definition Header_Del (key : string) (w : ResponseWriter) : ResponseWriter :=
  {| Header := delete key (Header w); Code := Code w; Body := Body w |}.

(** [w.WriteHeader(code)]: only the first status counts. *)
Definition WriteHeader (code : Z) (w : ResponseWriter) : ResponseWriter :=
  match Code w with
  | Some _ => w
  | None => {| Header := Header w; Code := Some code; Body := Body w |}
  end.

(** [w.Write(data)]: writes the status 200 first if none was written. *)
Definition Write (data : string) (w : ResponseWriter) : ResponseWriter :=
  let w' := WriteHeader StatusOK w in
  {| Header := Header w'; Code := Code w'; Body := Body w' ++ data |}.

Definition newline : string := String (ascii_of_nat 10) EmptyString.

(** [func Error(w ResponseWriter, error string, code int) {
      w.Header().Set("Content-Type", "text/plain; charset=utf-8")
      w.Header().Set("X-Content-Type-Options", "nosniff")
      w.WriteHeader(code)
      fmt.Fprintln(w, error) }]
    (From Go 1.23 on the function first deletes Content-Length as well.) *)
Definition http_Error (w : ResponseWriter) (msg : string) (code : Z) : ResponseWriter :=
  let w1 := Header_Set "Content-Type" "text/plain; charset=utf-8" w in
  let w2 := Header_Set "X-Content-Type-Options" "nosniff" w1 in
  let w3 := WriteHeader code w2 in
  Write (msg ++ newline) w3.

(** [func NotFound(w ResponseWriter, r *Request) {
      Error(w, "404 page not found", StatusNotFound) }] *)
Definition http_NotFound (w : ResponseWriter) (r : Request) : ResponseWriter :=
  http_Error w "404 page not found" StatusNotFound.

(** ** Package [log] and the [Logger] interface of the middleware

    [type Logger interface { Printf(format string, v ...interface{}) }].
    A logger is either a [*log.Logger] made by [log.New] or some value of
    the caller's own; a nil interface value is [None] in the configuration. *)
Inductive io_Writer : Type := os_Stdout | os_Stderr.

Definition log_Ldate : Z := 1.
Definition log_Ltime : Z := 2.
Definition log_LstdFlags : Z := Z.lor log_Ldate log_Ltime.

Inductive Logger : Type :=
| log_New (out : io_Writer) (prefix : string) (flag : Z)
| customLogger (id : nat).

(** ** The host: what the middleware is handed and what it delegates to

    [fs_Sub] is [io/fs.Sub] on the file stores at hand, and
    [http_FileServer fsys] is [http.FileServer(http.FS(fsys)).ServeHTTP],
    taken as a function from the response writer it is given to the one it
    leaves. *)
Class Host : Type := {
  FS : Type;
  fs_Sub : FS -> string -> FS + error;
  http_FileServer : FS -> ResponseWriter -> Request -> ResponseWriter
}.

(** A handler outside of this package, such as the next one of the chain. *)
Definition ExtHandler : Type := ResponseWriter -> Request -> ResponseWriter.

(** ** The middleware *)

Section Middleware.
Context {host : Host}.

(** [type Config struct]; the field [Logger] is [Logger_] here, next to the
    type of that name. *)
Record Config : Type := mkConfig {
  StaticFS : FS;
  StaticRoot : string;
  StaticFilePrefix : string;
  CacheDuration : Duration;
  Debug : bool;
  Logger_ : option Logger
}.

(** [type StaticMiddleware struct { config Config }] *)
Record StaticMiddleware : Type := mkStaticMiddleware {
  config : Config
}.

(** The calls that leave the middleware, each with its arguments; a
    response writer stands for its state at the time of the call. *)
Inductive Event : Type :=
| Printf (l : Logger) (format : string) (v : list string)
| Sub (fsys : FS) (dir : string)
| NextServeHTTP (w : ResponseWriter) (r : Request)
| FileServerServeHTTP (fsys : FS) (w : ResponseWriter) (r : Request).

(** What a request runs in: the struct behind the receiver [m], the
    response writer [w], and the trace.  [None] is a panic. *)
Record World (S : Type) : Type := mkWorld {
  self : S;
  resp : ResponseWriter;
  calls : list Event
}.
Arguments mkWorld {S} _ _ _.
Arguments self {S} _.
Arguments resp {S} _.
Arguments calls {S} _.

Definition M (S A : Type) : Type := World S -> option (A * World S).

#[export] Instance M_ret {S} : MRet (M S) :=
  fun A (a : A) (σ : World S) => Some (a, σ).

#[export] Instance M_bind {S} : MBind (M S) :=
  fun A B (k : A -> M S B) (c : M S A) (σ : World S) =>
    match c σ with
    | Some (a, σ') => k a σ'
    | None => None
    end.

Definition get_self {S} : M S S := fun σ => Some (self σ, σ).

Definition emit {S} (ev : Event) : M S unit :=
  fun σ => Some (tt, mkWorld (self σ) (resp σ) (calls σ ++ [ev])).

(** An operation on the response writer [w]. *)
Definition on_w {S} (f : ResponseWriter -> ResponseWriter) : M S unit :=
  fun σ => Some (tt, mkWorld (self σ) (f (resp σ)) (calls σ)).

Definition panic {S A} : M S A := fun _ => None.

(** [l.Printf(format, v...)] on an interface value: a nil one panics. *)
Definition Logger_Printf {S} (l : option Logger) (format : string) (v : list string) : M S unit :=
  match l with
  | Some lg => emit (Printf lg format v)
  | None => panic
  end.

(** [fs.Sub(fsys, dir)] *)
Definition call_fs_Sub {S} (fsys : FS) (dir : string) : M S (FS + error) :=
  emit (Sub fsys dir);; mret (fs_Sub fsys dir).

(** [next.ServeHTTP(w, r)] *)
Definition next_ServeHTTP {S} (next : ExtHandler) (r : Request) : M S unit :=
  fun σ => Some (tt, mkWorld (self σ) (next (resp σ) r)
                             (calls σ ++ [NextServeHTTP (resp σ) r])).

(** [http.FileServer(http.FS(fsys))], as a handler. *)
Definition fileServer {S} (fsys : FS) (r : Request) : M S unit :=
  fun σ => Some (tt, mkWorld (self σ) (http_FileServer fsys (resp σ) r)
                             (calls σ ++ [FileServerServeHTTP fsys (resp σ) r])).

(** [func StripPrefix(prefix string, h Handler) Handler {
      if prefix == "" { return h }
      return HandlerFunc(func(w ResponseWriter, r *Request) {
        p := strings.TrimPrefix(r.URL.Path, prefix)
        rp := strings.TrimPrefix(r.URL.RawPath, prefix)
        if len(p) < len(r.URL.Path) &&
           (r.URL.RawPath == "" || len(rp) < len(r.URL.RawPath)) {
          r2 := new(Request); *r2 = *r
          r2.URL = new(url.URL); *r2.URL = *r.URL
          r2.URL.Path = p; r2.URL.RawPath = rp
          h.ServeHTTP(w, r2)
        } else { NotFound(w, r) } }) }] *)
Definition stripped (prefix : string) (r : Request) : Request :=
  {| Method := Method r;
     url := {| Path := strings_TrimPrefix (Path (url r)) prefix;
               RawPath := strings_TrimPrefix (RawPath (url r)) prefix;
               RawQuery := RawQuery (url r) |} |}.

Definition http_StripPrefix {S} (prefix : string) (h : Request -> M S unit)
  : Request -> M S unit :=
  if String.eqb prefix "" then h
  else fun r =>
    let p := strings_TrimPrefix (Path (url r)) prefix in
    let rp := strings_TrimPrefix (RawPath (url r)) prefix in
    if (String.length p <? String.length (Path (url r)))%nat
       && (String.eqb (RawPath (url r)) ""
           || (String.length rp <? String.length (RawPath (url r)))%nat)
    then h (stripped prefix r)
    else on_w (fun w => http_NotFound w r).

(** [l == nil] on an interface value. *)
Definition is_nil {A} (l : option A) : bool :=
  match l with
  | None => true
  | Some _ => false
  end.

(** [func NewStaticMiddleware(config Config) *StaticMiddleware {
      if config.Debug && config.Logger == nil {
        config.Logger = log.New(os.Stdout, "DEBUG: ", log.LstdFlags) }
      return &StaticMiddleware{config: config} }] *)
Definition NewStaticMiddleware (config : Config) : StaticMiddleware :=
  let config :=
    if Debug config && is_nil (Logger_ config)
    then {| StaticFS := StaticFS config;
            StaticRoot := StaticRoot config;
            StaticFilePrefix := StaticFilePrefix config;
            CacheDuration := CacheDuration config;
            Debug := Debug config;
            Logger_ := Some (log_New os_Stdout "DEBUG: " log_LstdFlags) |}
    else config in
  {| config := config |}.

(** [cacheControlValue := fmt.Sprintf("public, max-age=%d",
      int(m.config.CacheDuration.Seconds()))], with [int] of 64 bits. *)
Definition cacheControlValue (d : Duration) : string :=
  "public, max-age=" ++ fmt_d (int_of_float64 (Seconds d)).

(** A read [m.config.f] of a field through the receiver. *)
Definition m_config {A} (f : Config -> A) : M StaticMiddleware A :=
  m ← get_self; mret (f (config m)).

(** [func (m *StaticMiddleware) serveStaticFiles(w, r)] *)
Definition serveStaticFiles (r : Request) : M StaticMiddleware unit :=
  fsys ← m_config StaticFS;
  root ← m_config StaticRoot;
  res ← call_fs_Sub fsys root;
  match res with
  | inr err =>
      debug ← m_config Debug;
      (if debug : bool
       then l ← m_config Logger_;
            Logger_Printf l "Error creating sub-filesystem: %s" [Error err]
       else mret tt);;
      on_w (fun w => http_Error w (Error err) StatusInternalServerError)
  | inl staticFS =>
      d ← m_config CacheDuration;
      (if 0 <? d
       then on_w (Header_Set "Cache-Control" (cacheControlValue d))
       else mret tt);;
      prefix ← m_config StaticFilePrefix;
      http_StripPrefix prefix (fileServer staticFS) r
  end.

(** [func (m *StaticMiddleware) Handler() func(next http.Handler) http.Handler]:
    the handler that wraps [next], on the request [r]. *)
Definition Handler (next : ExtHandler) (r : Request) : M StaticMiddleware unit :=
  prefix ← m_config StaticFilePrefix;
  if strings_HasPrefix (Path (url r)) prefix
  then
    debug ← m_config Debug;
    (if debug : bool
     then l ← m_config Logger_;
          Logger_Printf l "Serving static file: %s" [Path (url r)]
     else mret tt);;
    serveStaticFiles r
  else
    debug ← m_config Debug;
    (if debug : bool
     then l ← m_config Logger_;
          Logger_Printf l "Passing request to next handler: %s" [Path (url r)]
     else mret tt);;
    next_ServeHTTP next r.

(** One request through the wrapped handler, from an empty trace. *)
Definition ServeHTTP (m : StaticMiddleware) (next : ExtHandler)
  (w : ResponseWriter) (r : Request) : option (World StaticMiddleware) :=
  snd <$> Handler next r (mkWorld m w []).

End Middleware.

Arguments mkWorld {host S} _ _ _.
Arguments self {host S} _.
Arguments resp {host S} _.
Arguments calls {host S} _.

(** ** What a trace says *)

Section Traces.
Context {host : Host}.

(** The calls of the next handler, with the writer and request passed. *)
Fixpoint next_calls (tr : list Event) : list (ResponseWriter * Request) :=
  match tr with
  | [] => []
  | NextServeHTTP w r :: tr' => (w, r) :: next_calls tr'
  | _ :: tr' => next_calls tr'
  end.

(** The calls of the file server, with the file store it is rooted at. *)
Fixpoint file_server_calls (tr : list Event) : list (FS * ResponseWriter * Request) :=
  match tr with
  | [] => []
  | FileServerServeHTTP fsys w r :: tr' => (fsys, w, r) :: file_server_calls tr'
  | _ :: tr' => file_server_calls tr'
  end.

(** The attempts at rooting a file store. *)
Fixpoint sub_calls (tr : list Event) : list (FS * string) :=
  match tr with
  | [] => []
  | Sub fsys dir :: tr' => (fsys, dir) :: sub_calls tr'
  | _ :: tr' => sub_calls tr'
  end.

(** [fs.Sub] only builds a view: a client of the server sees the log
    lines and what the handlers downstream are given, not that call. *)
Definition observable (ev : Event) : bool :=
  match ev with
  | Sub _ _ => false
  | _ => true
  end.

Definition observe {S} (σ : World S) : ResponseWriter * list Event :=
  (resp σ, filter (fun ev => observable ev = true) (calls σ)).

(** The logger of a middleware made by [NewStaticMiddleware config]. *)
Definition logger_of (config : Config) : Logger :=
  match Logger_ config with
  | Some l => l
  | None => log_New os_Stdout "DEBUG: " log_LstdFlags
  end.

(** The debug line of a middleware made by [NewStaticMiddleware config]. *)
Definition debug_line (config : Config) (format : string) (v : list string) : list Event :=
  if Debug config then [Printf (logger_of config) format v] else [].

(** The response writer as [serveStaticFiles] hands it on once the file
    store is rooted. *)
Definition with_cache_control (c : Config) (w : ResponseWriter) : ResponseWriter :=
  if 0 <? CacheDuration c
  then Header_Set "Cache-Control" (cacheControlValue (CacheDuration c)) w
  else w.

(** The test of [http.StripPrefix] on the escaped path, which is empty
    unless the path was sent in an encoding other than the default one. *)
Definition delegated (prefix : string) (r : Request) : bool :=
  String.eqb (RawPath (url r)) "" || strings_HasPrefix (RawPath (url r)) prefix.

(** The requests of a connection one after the other through the one
    middleware [m], each with a response writer of its own: the struct
    behind [m] is handed on from request to request. *)
Fixpoint serveAll (m : StaticMiddleware) (next : ExtHandler)
  (reqs : list (ResponseWriter * Request))
  : option (StaticMiddleware * list (ResponseWriter * list Event)) :=
  match reqs with
  | [] => Some (m, [])
  | (w, r) :: reqs' =>
      match ServeHTTP m next w r with
      | None => None
      | Some σ =>
          match serveAll (self σ) next reqs' with
          | None => None
          | Some (m', out) => Some (m', (resp σ, calls σ) :: out)
          end
      end
  end.

End Traces.

(** ** The variant of the design notes: the rooted view is cached

    "An implementer may cache the rooted view at construction time": the
    constructor calls [fs.Sub] once and keeps what it returns, view or
    error, and the handler reads it where [serveStaticFiles] calls
    [fs.Sub]; everything else is as in [Handler]. *)

Section Cached.
Context {host : Host}.

Record CachedMiddleware : Type := mkCachedMiddleware {
  cached_config : Config;
  rooted : FS + error
}.

Definition NewCachedMiddleware (c : Config) : CachedMiddleware :=
  {| cached_config := config (NewStaticMiddleware c);
     rooted := fs_Sub (StaticFS c) (StaticRoot c) |}.

Definition c_config {A} (f : Config -> A) : M CachedMiddleware A :=
  m ← get_self; mret (f (cached_config m)).

Definition serveStaticFilesCached (r : Request) : M CachedMiddleware unit :=
  m ← get_self;
  match rooted m with
  | inr err =>
      debug ← c_config Debug;
      (if debug : bool
       then l ← c_config Logger_;
            Logger_Printf l "Error creating sub-filesystem: %s" [Error err]
       else mret tt);;
      on_w (fun w => http_Error w (Error err) StatusInternalServerError)
  | inl staticFS =>
      d ← c_config CacheDuration;
      (if 0 <? d
       then on_w (Header_Set "Cache-Control" (cacheControlValue d))
       else mret tt);;
      prefix ← c_config StaticFilePrefix;
      http_StripPrefix prefix (fileServer staticFS) r
  end.

Definition CachedHandler (next : ExtHandler) (r : Request) : M CachedMiddleware unit :=
  prefix ← c_config StaticFilePrefix;
  if strings_HasPrefix (Path (url r)) prefix
  then
    debug ← c_config Debug;
    (if debug : bool
     then l ← c_config Logger_;
          Logger_Printf l "Serving static file: %s" [Path (url r)]
     else mret tt);;
    serveStaticFilesCached r
  else
    debug ← c_config Debug;
    (if debug : bool
     then l ← c_config Logger_;
          Logger_Printf l "Passing request to next handler: %s" [Path (url r)]
     else mret tt);;
    next_ServeHTTP next r.

Definition CachedServeHTTP (m : CachedMiddleware) (next : ExtHandler)
  (w : ResponseWriter) (r : Request) : option (World CachedMiddleware) :=
  snd <$> CachedHandler next r (mkWorld m w []).

End Cached.

(** ** A host to run the middleware on: the file store of the tests

    [fstest.MapFS] with its files, [fs.Sub] as package [io/fs] has it, and
    a file server of a few lines in the place of [http.FileServer]: it
    serves the file a path names, with the content type of its extension,
    or answers 404.  On an error [net/http] up to Go 1.22 leaves the header
    map as it finds it; from Go 1.23 on, [serveError] first deletes
    Cache-Control, Content-Encoding, Etag and Last-Modified.  Both are
    here, under the flag [keepHeaders]. *)

Module TestHost.

Inductive MapFS : Type :=
| mapFS (files : gmap string string)
| subFS (fsys : MapFS) (dir : string).

(** The elements of a slash-separated name. *)
Fixpoint elements (name cur : string) : list string :=
  match name with
  | EmptyString => [cur]
  | String c rest =>
      if Ascii.eqb c "/" then cur :: elements rest ""
      else elements rest (cur ++ String c EmptyString)
  end.

(** [fs.ValidPath]: the name is "." or its elements are none of them
    empty, "." or "..".  (The names here are ASCII; the check of the
    UTF-8 encoding is left out.) *)
Definition fs_ValidPath (name : string) : bool :=
  String.eqb name "."
  || forallb (fun elem => negb (String.eqb elem "" || String.eqb elem "."
                                || String.eqb elem ".."))
             (elements name "").

(** [func Sub(fsys FS, dir string) (FS, error) {
      if !ValidPath(dir) {
        return nil, &PathError{Op: "sub", Path: dir, Err: ErrInvalid} }
      if dir == "." { return fsys, nil }
      ...
      return &subFS{fsys, dir}, nil }] *)
Definition Sub (fsys : MapFS) (dir : string) : MapFS + error :=
  if negb (fs_ValidPath dir) then inr (PathError "sub" dir fs_ErrInvalid)
  else if String.eqb dir "." then inl fsys
  else inl (subFS fsys dir).

(** The content of the file [name], if there is one. *)
Fixpoint Open (fsys : MapFS) (name : string) : option string :=
  match fsys with
  | mapFS files => files !! name
  | subFS fsys' dir =>
      if fs_ValidPath name
      then Open fsys' (if String.eqb name "." then dir else dir ++ "/" ++ name)
      else None
  end.

(** The name the file server opens for a request. *)
Definition name_of (r : Request) : string :=
  let upath := if strings_HasPrefix (Path (url r)) "/" then Path (url r)
               else "/" ++ Path (url r) in
  strings_TrimPrefix upath "/".

Definition found (fsys : MapFS) (r : Request) : bool :=
  match Open fsys (name_of r) with
  | Some _ => true
  | None => false
  end.

Definition has_suffix (s suffix : string) : bool :=
  strings_HasPrefix (slice_from (String.length s - String.length suffix) s) suffix
  && (String.length suffix <=? String.length s)%nat.

Definition content_type (name : string) : string :=
  if has_suffix name ".css" then "text/css; charset=utf-8"
  else "text/plain; charset=utf-8".

Definition serveError (keepHeaders : bool) (w : ResponseWriter) (text : string) (code : Z)
  : ResponseWriter :=
  let w' := if keepHeaders then w
            else Header_Del "Last-Modified"
                   (Header_Del "Etag"
                      (Header_Del "Content-Encoding"
                         (Header_Del "Cache-Control" w))) in
  http_Error w' text code.

Definition FileServer (keepHeaders : bool) (fsys : MapFS) (w : ResponseWriter) (r : Request)
  : ResponseWriter :=
  match Open fsys (name_of r) with
  | Some data =>
      Write data (WriteHeader StatusOK
                    (Header_Set "Content-Type" (content_type (name_of r)) w))
  | None => serveError keepHeaders w "404 page not found" StatusNotFound
  end.

(** Go up to 1.22, and Go from 1.23 on. *)
Definition go122 : Host :=
  {| FS := MapFS; fs_Sub := Sub; http_FileServer := FileServer true |}.
Definition go123 : Host :=
  {| FS := MapFS; fs_Sub := Sub; http_FileServer := FileServer false |}.

(** The file store of [static_test.go]. *)
Definition mockFS : MapFS := mapFS {[ "static/testfile.css" := "body {}" ]}.

Definition GET (path : string) : Request :=
  {| Method := "GET"; url := {| Path := path; RawPath := ""; RawQuery := "" |} |}.

(** A response writer nothing was written to. *)
Definition fresh : ResponseWriter := {| Header := ∅; Code := None; Body := "" |}.

(** A next handler, as in the tests: it answers 200 with a body. *)
Definition nextHandler : ExtHandler := fun w _ => Write "next" w.

Definition staticConfig (h : Host) (fsys : @FS h) (root : string) (d : Duration) (debug : bool)
  : @Config h :=
  {| StaticFS := fsys; StaticRoot := root; StaticFilePrefix := "/static";
     CacheDuration := d; Debug := debug; Logger_ := None |}.

(** The request [GET /stat%69c/testfile.css]: [net/url] decodes the path
    to /static/testfile.css and, the encoding not being the default one,
    keeps the path as sent in [RawPath]. *)
Definition escaped : Request :=
  {| Method := "GET";
     url := {| Path := "/static/testfile.css";
               RawPath := "/stat%69c/testfile.css";
               RawQuery := "" |} |}.

(** The configuration of the tests, with the empty prefix. *)
Definition emptyPrefixConfig : @Config go122 :=
  @mkConfig go122 mockFS "static" "" 0 false None.

End TestHost.

(** ** More of a trace: the log lines, and the calls downstream *)

Section Lines.
Context {host : Host}.

(** The log lines, each with the logger it went to. *)
Fixpoint printf_calls (tr : list Event) : list (Logger * string * list string) :=
  match tr with
  | [] => []
  | Printf l format v :: tr' => (l, format, v) :: printf_calls tr'
  | _ :: tr' => printf_calls tr'
  end.

Definition is_Printf (ev : Event) : bool :=
  match ev with
  | Printf _ _ _ => true
  | _ => false
  end.

(** A trace without its log lines. *)
Definition downstream (tr : list Event) : list Event :=
  filter (fun ev => is_Printf ev = false) tr.

(** The prefix test of [Handler], on a request of a sequence. *)
Definition matched (c : Config) (wr : ResponseWriter * Request) : bool :=
  strings_HasPrefix (Path (url (snd wr))) (StaticFilePrefix c).

(** [m.Handler()(next)] in the place of a next handler, as where [r.Use]
    is called twice: the handler the router calls wraps the one of the
    other middleware.  (A panic, which no middleware of the constructor
    has, would not return; here it leaves the response writer.) *)
Definition wrap (m : StaticMiddleware) (next : ExtHandler) : ExtHandler :=
  fun w r =>
    match ServeHTTP m next w r with
    | Some σ => resp σ
    | None => w
    end.

End Lines.

(** ** Package [static]: the middleware after its constructor was folded
    into [Handler] *)

Module static.
Section Package.
Context {host : Host}.

(** [type Config struct]; the field [Logger] is [Logger_], as above. *)
Record Config : Type := mkConfig {
  Fs : FS;
  Root : string;
  FilePrefix : string;
  CacheDuration : Duration;
  Debug : bool;
  Logger_ : option Logger
}.

(** [type middleware struct { config Config }] *)
Record middleware : Type := mkMiddleware {
  config : Config
}.

Definition m_config {A} (f : Config -> A) : M middleware A :=
  m ← get_self; mret (f (config m)).

(** [func (m *middleware) serveStaticFiles(w, r)] *)
Definition serveStaticFiles (r : Request) : M middleware unit :=
  fsys ← m_config Fs;
  root ← m_config Root;
  res ← call_fs_Sub fsys root;
  match res with
  | inr err =>
      debug ← m_config Debug;
      (if debug : bool
       then l ← m_config Logger_;
            Logger_Printf l "Error creating sub-filesystem: %s" [Error err]
       else mret tt);;
      on_w (fun w => http_Error w (Error err) StatusInternalServerError)
  | inl staticFS =>
      d ← m_config CacheDuration;
      (if 0 <? d
       then on_w (Header_Set "Cache-Control" (cacheControlValue d))
       else mret tt);;
      prefix ← m_config FilePrefix;
      http_StripPrefix prefix (fileServer staticFS) r
  end.

(** [func (m *middleware) handler(next http.Handler) http.Handler] *)
Definition handler (next : ExtHandler) (r : Request) : M middleware unit :=
  prefix ← m_config FilePrefix;
  if strings_HasPrefix (Path (url r)) prefix
  then
    debug ← m_config Debug;
    (if debug : bool
     then l ← m_config Logger_;
          Logger_Printf l "Serving static file: %s" [Path (url r)]
     else mret tt);;
    serveStaticFiles r
  else
    debug ← m_config Debug;
    (if debug : bool
     then l ← m_config Logger_;
          Logger_Printf l "Passing request to next handler: %s" [Path (url r)]
     else mret tt);;
    next_ServeHTTP next r.

(** [func Handler(config Config) func(next http.Handler) http.Handler {
      if config.Debug && config.Logger == nil {
        config.Logger = log.New(os.Stdout, "DEBUG: ", log.LstdFlags) }
      c := &middleware{config: config}
      return c.handler }],
    with the handler it returns run on one request, from an empty trace. *)
Definition Handler (config : Config) (next : ExtHandler)
  (w : ResponseWriter) (r : Request) : option (World middleware) :=
  let config :=
    if Debug config && is_nil (Logger_ config)
    then {| Fs := Fs config;
            Root := Root config;
            FilePrefix := FilePrefix config;
            CacheDuration := CacheDuration config;
            Debug := Debug config;
            Logger_ := Some (log_New os_Stdout "DEBUG: " log_LstdFlags) |}
    else config in
  let c := {| config := config |} in
  snd <$> handler next r (mkWorld c w []).

End Package.
End static.

(** ** [static.go] as it was before [CacheDuration]

    The second text of [static.go]: no cache header, and the handler
    itself writes no log line. *)

Module V1.
Section Package.
Context {host : Host}.

(** [type Config struct] *)
Record Config : Type := mkConfig {
  StaticFS : FS;
  StaticRoot : string;
  StaticFilePrefix : string;
  Debug : bool;
  Logger_ : option Logger
}.

(** [type StaticMiddleware struct { config Config }] *)
Record StaticMiddleware : Type := mkStaticMiddleware {
  config : Config
}.

(** [func NewStaticMiddleware(config Config) *StaticMiddleware] *)
Definition NewStaticMiddleware (config : Config) : StaticMiddleware :=
  let config :=
    if Debug config && is_nil (Logger_ config)
    then {| StaticFS := StaticFS config;
            StaticRoot := StaticRoot config;
            StaticFilePrefix := StaticFilePrefix config;
            Debug := Debug config;
            Logger_ := Some (log_New os_Stdout "DEBUG: " log_LstdFlags) |}
    else config in
  {| config := config |}.

Definition m_config {A} (f : Config -> A) : M StaticMiddleware A :=
  m ← get_self; mret (f (config m)).

(** [func (m *StaticMiddleware) serveStaticFiles(w, r) {
      staticFS, err := fs.Sub(m.config.StaticFS, m.config.StaticRoot)
      if err != nil {
        if m.config.Debug {
          m.config.Logger.Printf("Error creating sub-filesystem: %s", err) }
        http.Error(w, err.Error(), http.StatusInternalServerError)
        return }
      fileServer := http.FileServer(http.FS(staticFS))
      http.StripPrefix(m.config.StaticFilePrefix, fileServer).ServeHTTP(w, r) }] *)
Definition serveStaticFiles (r : Request) : M StaticMiddleware unit :=
  fsys ← m_config StaticFS;
  root ← m_config StaticRoot;
  res ← call_fs_Sub fsys root;
  match res with
  | inr err =>
      debug ← m_config Debug;
      (if debug : bool
       then l ← m_config Logger_;
            Logger_Printf l "Error creating sub-filesystem: %s" [Error err]
       else mret tt);;
      on_w (fun w => http_Error w (Error err) StatusInternalServerError)
  | inl staticFS =>
      prefix ← m_config StaticFilePrefix;
      http_StripPrefix prefix (fileServer staticFS) r
  end.

(** [if strings.HasPrefix(r.URL.Path, m.config.StaticFilePrefix) {
      m.serveStaticFiles(w, r)
    } else { next.ServeHTTP(w, r) }] *)
Definition Handler (next : ExtHandler) (r : Request) : M StaticMiddleware unit :=
  prefix ← m_config StaticFilePrefix;
  if strings_HasPrefix (Path (url r)) prefix
  then serveStaticFiles r
  else next_ServeHTTP next r.

Definition ServeHTTP (m : StaticMiddleware) (next : ExtHandler)
  (w : ResponseWriter) (r : Request) : option (World StaticMiddleware) :=
  snd <$> Handler next r (mkWorld m w []).

End Package.
End V1.

(** ** From one package to the other *)

Section Conversions.
Context {host : Host}.

(** A configuration of package [static] under the field names of
    [static.go]. *)
Definition of_static (c : static.Config) : Config :=
  {| StaticFS := static.Fs c;
     StaticRoot := static.Root c;
     StaticFilePrefix := static.FilePrefix c;
     CacheDuration := static.CacheDuration c;
     Debug := static.Debug c;
     Logger_ := static.Logger_ c |}.

(** A configuration of the first [static.go], with the field that came
    later. *)
Definition with_CacheDuration (c : V1.Config) (d : Duration) : Config :=
  {| StaticFS := V1.StaticFS c;
     StaticRoot := V1.StaticRoot c;
     StaticFilePrefix := V1.StaticFilePrefix c;
     CacheDuration := d;
     Debug := V1.Debug c;
     Logger_ := V1.Logger_ c |}.

End Conversions.

(** * Properties *)

(** ** Strings *)

Lemma substring_0_append (p t : string) :
  substring 0 (String.length p) (p ++ t) = p.
Proof.
  induction p as [|c p IH]; simpl.
  - destruct t; reflexivity.
  - rewrite IH. reflexivity.
Qed.

Lemma length_append (p t : string) :
  String.length (p ++ t) = (String.length p + String.length t)%nat.
Proof. induction p as [|c p IH]; simpl; [reflexivity | rewrite IH; reflexivity]. Qed.

Lemma slice_from_append (p t : string) :
  slice_from (String.length p) (p ++ t) = t.
Proof. induction p as [|c p IH]; simpl; [reflexivity | exact IH]. Qed.

Lemma substring_slice_from (n : nat) (s : string) :
  (n <= String.length s)%nat -> s = substring 0 n s ++ slice_from n s.
Proof.
  revert s; induction n as [|n IH]; intros s Hn.
  - destruct s; reflexivity.
  - destruct s as [|c s]; simpl in Hn; [lia|].
    change (String c s = String c (substring 0 n s ++ slice_from n s)).
    f_equal. apply IH. lia.
Qed.

(** [strings.HasPrefix] is the prefix relation on the bytes. *)
Lemma HasPrefix_spec (s prefix : string) :
  strings_HasPrefix s prefix = true <-> exists rest, s = prefix ++ rest.
Proof.
  unfold strings_HasPrefix. split.
  - intros H. apply andb_prop in H as [Hlen Heq].
    apply Nat.leb_le in Hlen. apply String.eqb_eq in Heq.
    exists (slice_from (String.length prefix) s).
    rewrite <- Heq at 1. apply substring_slice_from. exact Hlen.
  - intros [rest ->]. apply andb_true_intro. split.
    + apply Nat.leb_le. rewrite length_append. lia.
    + rewrite substring_0_append. apply String.eqb_refl.
Qed.

Lemma HasPrefix_empty (s : string) : strings_HasPrefix s "" = true.
Proof. apply HasPrefix_spec. exists s. reflexivity. Qed.

Lemma TrimPrefix_append (p t : string) : strings_TrimPrefix (p ++ t) p = t.
Proof.
  unfold strings_TrimPrefix.
  replace (strings_HasPrefix (p ++ t) p) with true
    by (symmetry; apply HasPrefix_spec; eauto).
  apply slice_from_append.
Qed.

Lemma TrimPrefix_HasPrefix (s p : string) :
  strings_HasPrefix s p = true -> s = p ++ strings_TrimPrefix s p.
Proof.
  intros H. apply HasPrefix_spec in H as [rest ->].
  rewrite TrimPrefix_append. reflexivity.
Qed.

Lemma TrimPrefix_shorter (s p : string) :
  strings_HasPrefix s p = true -> p <> "" ->
  (String.length (strings_TrimPrefix s p) <? String.length s)%nat = true.
Proof.
  intros H Hp. apply HasPrefix_spec in H as [rest ->].
  rewrite TrimPrefix_append, length_append. apply Nat.ltb_lt.
  destruct p; [congruence | simpl; lia].
Qed.

Lemma TrimPrefix_not_shorter (s p : string) :
  strings_HasPrefix s p = false ->
  (String.length (strings_TrimPrefix s p) <? String.length s)%nat = false.
Proof.
  intros H. unfold strings_TrimPrefix. rewrite H. apply Nat.ltb_irrefl.
Qed.

(** ** Whole seconds go through [float64] unchanged *)

Lemma digits2_pos_bounds (p : positive) :
  2 ^ (Z.pos (digits2_pos p) - 1) <= Z.pos p < 2 ^ Z.pos (digits2_pos p).
Proof.
  induction p as [p IH|p IH|]; cbn [digits2_pos].
  - rewrite Pos2Z.inj_succ.
    replace (Z.succ (Z.pos (digits2_pos p)) - 1)
      with (Z.succ (Z.pos (digits2_pos p) - 1)) by lia.
    rewrite !Z.pow_succ_r by lia. lia.
  - rewrite Pos2Z.inj_succ.
    replace (Z.succ (Z.pos (digits2_pos p)) - 1)
      with (Z.succ (Z.pos (digits2_pos p) - 1)) by lia.
    rewrite !Z.pow_succ_r by lia. lia.
  - simpl. lia.
Qed.

Lemma digits2_pos_le (p : positive) (n : Z) :
  0 <= n -> Z.pos p < 2 ^ n -> Z.pos (digits2_pos p) <= n.
Proof.
  intros Hn Hp. destruct (digits2_pos_bounds p) as [Hlo _].
  destruct (Z_le_gt_dec (Z.pos (digits2_pos p)) n) as [|Hgt]; [assumption|].
  exfalso.
  assert (2 ^ n <= 2 ^ (Z.pos (digits2_pos p) - 1))
    by (apply Z.pow_le_mono_r; lia).
  lia.
Qed.

Lemma iter_xO_digits (p k : positive) :
  digits2_pos (Pos.iter xO p k) = (digits2_pos p + k)%positive.
Proof.
  induction k as [|k IH] using Pos.peano_ind.
  - simpl. lia.
  - rewrite Pos.iter_succ. cbn [digits2_pos]. rewrite IH. lia.
Qed.

Lemma iter_xO_value (p k : positive) :
  Z.pos (Pos.iter xO p k) = Z.pos p * 2 ^ Z.pos k.
Proof.
  induction k as [|k IH] using Pos.peano_ind.
  - simpl. lia.
  - rewrite Pos.iter_succ, Pos2Z.inj_succ, Z.pow_succ_r by lia.
    rewrite Pos2Z.inj_xO, IH. lia.
Qed.

(** An integer below 2^53 is a float: its digits, shifted up to 53 bits. *)
Lemma float64_of_int_pos (p : positive) :
  Z.pos p < 2 ^ 53 ->
  float64_of_int (Z.pos p) =
    match Z.pos (digits2_pos p) - 53 with
    | Z.neg k => S754_finite false (Pos.iter xO p k) (Z.neg k)
    | _ => S754_finite false p 0
    end.
Proof.
  intros Hp.
  assert (Hd : Z.pos (digits2_pos p) <= 53) by (apply digits2_pos_le; lia).
  unfold float64_of_int, binary_normalize, binary_round, shl_align.
  unfold fexp, emin, prec64, emax64.
  rewrite Z.max_l by lia.
  replace (Z.pos (digits2_pos p) + 0 - 53 - 0)
    with (Z.pos (digits2_pos p) - 53) by lia.
  replace (Z.pos (digits2_pos p) + 0 - 53)
    with (Z.pos (digits2_pos p) - 53) by lia.
  destruct (Z.pos (digits2_pos p) - 53) as [|k|k] eqn:Hk; try lia.
  - unfold binary_round_aux, shr_fexp, Zdigits2, fexp, emin.
    replace (Z.pos (digits2_pos p) + 0) with 53 by lia. simpl.
    replace (Z.pos (digits2_pos p) + 0 - 53) with 0 by lia. simpl.
    reflexivity.
  - unfold binary_round_aux, shr_fexp, Zdigits2, fexp, emin.
    rewrite iter_xO_digits, Pos2Z.inj_add.
    replace (Z.pos (digits2_pos p) + Z.pos k + Z.neg k)
      with (Z.pos (digits2_pos p)) by lia.
    rewrite Z.max_l by lia.
    replace (Z.pos (digits2_pos p) - 53 - Z.neg k) with 0 by lia.
    cbn [shr shr_record_of_loc shr_m loc_of_shr_record round_nearest_even].
    unfold Zdigits2. rewrite iter_xO_digits, Pos2Z.inj_add.
    replace (Z.pos (digits2_pos p) + Z.pos k + Z.neg k)
      with (Z.pos (digits2_pos p)) by lia.
    rewrite Z.max_l by lia.
    replace (Z.pos (digits2_pos p) - 53 - Z.neg k) with 0 by lia.
    cbn [shr shr_m].
    replace (Z.neg k <=? 1024 - 53) with true
      by (symmetry; apply Z.leb_le; lia).
    reflexivity.
Qed.

Lemma int_of_float64_of_int (n : Z) :
  0 <= n < 2 ^ 53 -> int_of_float64 (float64_of_int n) = n.
Proof.
  intros [Hlo Hhi]. destruct n as [|p|p]; [reflexivity| |lia].
  rewrite float64_of_int_pos by assumption.
  destruct (Z.pos (digits2_pos p) - 53) as [|k|k] eqn:Hk.
  - simpl. lia.
  - simpl. lia.
  - unfold int_of_float64.
    replace (0 <=? Z.neg k) with false by (symmetry; apply Z.leb_gt; lia).
    rewrite iter_xO_value. replace (- Z.neg k) with (Z.pos k) by lia.
    apply Z.quot_mul. lia.
Qed.

(** [int(d.Seconds())] of a duration of [k] seconds and no nanoseconds. *)
Lemma Seconds_whole (k : Z) :
  0 <= k < 2 ^ 53 -> int_of_float64 (Seconds (k * Second)) = k.
Proof.
  intros Hk. unfold Seconds.
  replace (Z.quot (k * Second) Second) with k
    by (symmetry; apply Z.quot_mul; discriminate).
  replace (Z.rem (k * Second) Second) with 0
    by (symmetry; apply Z.rem_mul; discriminate).
  replace (float64_div (float64_of_int 0) (float64_of_int 1000000000))
    with (S754_zero false) by (vm_compute; reflexivity).
  rewrite <- (int_of_float64_of_int k Hk) at 2.
  f_equal. destruct k as [|p|p]; [reflexivity| |lia].
  rewrite float64_of_int_pos by lia.
  destruct (Z.pos (digits2_pos p) - 53); reflexivity.
Qed.

(** ** Durations with nanoseconds: [int(d.Seconds())] is within one second

    The quotient and the sum of [Seconds] are rounded to 53 bits.  Rounding
    cuts a mantissa down and adds one or nothing, which bounds the result
    with no look at the rounding bits. *)

Lemma shr_1_m mrs : 0 <= shr_m mrs -> shr_m (shr_1 mrs) = shr_m mrs / 2.
Proof.
  intros H. rewrite <- Z.div2_div. destruct mrs as [m r s]. simpl in *.
  destruct m as [|[p|p|]|p]; try reflexivity; lia.
Qed.

Lemma iter_pos_shr_m (k : positive) : forall mrs,
  0 <= shr_m mrs ->
  shr_m (SpecFloat.iter_pos shr_1 k mrs) = shr_m mrs / 2 ^ Z.pos k.
Proof.
  induction k as [k IH|k IH|]; intros mrs H; cbn [SpecFloat.iter_pos].
  - assert (H1 : 0 <= shr_m (shr_1 mrs))
      by (rewrite shr_1_m by assumption; apply Z.div_pos; lia).
    assert (H2 : 0 <= shr_m (SpecFloat.iter_pos shr_1 k (shr_1 mrs)))
      by (rewrite IH by assumption; apply Z.div_pos; lia).
    rewrite IH, IH, shr_1_m by assumption.
    rewrite !Z.div_div by lia. f_equal.
    replace (Z.pos k~1) with (1 + Z.pos k + Z.pos k) by lia.
    rewrite !Z.pow_add_r by lia. change (2 ^ 1) with 2. ring.
  - assert (H2 : 0 <= shr_m (SpecFloat.iter_pos shr_1 k mrs))
      by (rewrite IH by assumption; apply Z.div_pos; lia).
    rewrite IH, IH by assumption.
    rewrite !Z.div_div by lia. f_equal.
    replace (Z.pos k~0) with (Z.pos k + Z.pos k) by lia.
    rewrite !Z.pow_add_r by lia. ring.
  - rewrite shr_1_m by assumption. reflexivity.
Qed.

Lemma digits2_pos_unique (p : positive) (n : Z) :
  2 ^ (n - 1) <= Z.pos p < 2 ^ n -> Z.pos (digits2_pos p) = n.
Proof.
  intros [Hlo Hhi]. destruct (digits2_pos_bounds p) as [Dlo Dhi].
  assert (Hn : 0 < n).
  { destruct (Z_lt_le_dec 0 n) as [|Hn]; [assumption|]. exfalso.
    destruct (Z.eq_dec n 0) as [->|]; [simpl in Hhi; lia|].
    rewrite Z.pow_neg_r in Hhi by lia. lia. }
  destruct (Z_lt_le_dec (Z.pos (digits2_pos p)) n) as [Hlt|Hge].
  - exfalso.
    assert (2 ^ Z.pos (digits2_pos p) <= 2 ^ (n - 1)) by (apply Z.pow_le_mono_r; lia).
    lia.
  - destruct (Z_lt_le_dec n (Z.pos (digits2_pos p))) as [Hlt|Hle]; [|lia].
    exfalso.
    assert (2 ^ n <= 2 ^ (Z.pos (digits2_pos p) - 1)) by (apply Z.pow_le_mono_r; lia).
    lia.
Qed.

Lemma round_nearest_even_range (m : Z) (l : location) :
  m <= round_nearest_even m l <= m + 1.
Proof.
  destruct l as [|[]]; simpl; try lia. destruct (Z.even m); lia.
Qed.

Lemma shr_m_of_loc (m : Z) (l : location) : shr_m (shr_record_of_loc m l) = m.
Proof. destruct l as [|[]]; reflexivity. Qed.

Lemma shr_m_of_loc_nonneg (m : Z) (l : location) :
  0 <= m -> 0 <= shr_m (shr_record_of_loc m l).
Proof. rewrite shr_m_of_loc. trivial. Qed.

Lemma shr_fexp_m (m : positive) (e : Z) (l : location) :
  53 <= Z.pos (digits2_pos m) -> -1074 <= e ->
  exists mrs,
    shr_fexp 53 1024 (Z.pos m) e l = (mrs, e + (Z.pos (digits2_pos m) - 53))
    /\ shr_m mrs = Z.pos m / 2 ^ (Z.pos (digits2_pos m) - 53).
Proof.
  intros Hd He. unfold shr_fexp, fexp, emin, Zdigits2.
  rewrite Z.max_l by lia.
  replace (Z.pos (digits2_pos m) + e - 53 - e)
    with (Z.pos (digits2_pos m) - 53) by lia.
  destruct (Z.pos (digits2_pos m) - 53) as [|k|k] eqn:Hk; try lia.
  - eexists. split; [cbn [shr]; f_equal; lia|].
    rewrite shr_m_of_loc. simpl. rewrite Z.div_1_r. reflexivity.
  - eexists. split; [cbn [shr]; reflexivity|].
    rewrite iter_pos_shr_m by (apply shr_m_of_loc_nonneg; lia).
    rewrite shr_m_of_loc. reflexivity.
Qed.

Lemma binary_round_aux_bracket (M : positive) (e : Z) (l : location) :
  53 <= Z.pos (digits2_pos M) -> -1074 <= e ->
  Z.pos (digits2_pos M) + e <= 1000 ->
  exists m2 m3 e3,
    binary_round_aux 53 1024 false (Z.pos M) e l = S754_finite false m3 e3
    /\ Z.pos M / 2 ^ (Z.pos (digits2_pos M) - 53) <= m2
       <= Z.pos M / 2 ^ (Z.pos (digits2_pos M) - 53) + 1
    /\ ((Z.pos m3 = m2 /\ e3 = e + (Z.pos (digits2_pos M) - 53))
        \/ (2 * Z.pos m3 = m2 /\ e3 = e + (Z.pos (digits2_pos M) - 53) + 1)).
Proof.
  intros Hd He Hmax.
  destruct (shr_fexp_m M e l Hd He) as [mrs1 [E1 Hm1]].
  unfold binary_round_aux. rewrite E1.
  set (k := Z.pos (digits2_pos M) - 53) in *.
  set (m2 := round_nearest_even (shr_m mrs1) (loc_of_shr_record mrs1)).
  pose proof (round_nearest_even_range (shr_m mrs1) (loc_of_shr_record mrs1)) as Hr.
  fold m2 in Hr. rewrite Hm1 in Hr.
  destruct (digits2_pos_bounds M) as [Dlo Dhi].
  assert (Hk : 0 <= k) by (unfold k; lia).
  assert (Hm1lo : 2 ^ 52 <= Z.pos M / 2 ^ k).
  { apply Z.div_le_lower_bound; [apply Z.pow_pos_nonneg; lia|].
    rewrite <- Z.pow_add_r by lia.
    replace (k + 52) with (Z.pos (digits2_pos M) - 1) by (unfold k; lia).
    exact Dlo. }
  assert (Hm1hi : Z.pos M / 2 ^ k < 2 ^ 53).
  { apply Z.div_lt_upper_bound; [apply Z.pow_pos_nonneg; lia|].
    rewrite <- Z.pow_add_r by lia.
    replace (k + 53) with (Z.pos (digits2_pos M)) by (unfold k; lia).
    exact Dhi. }
  destruct m2 as [|p2|p2] eqn:Hm2; try lia.
  destruct (Z.eq_dec (Z.pos p2) (2 ^ 53)) as [Htop|Hlow].
  - assert (Hd2 : Z.pos (digits2_pos p2) = 54)
      by (apply digits2_pos_unique; rewrite Htop; simpl; lia).
    destruct (shr_fexp_m p2 (e + k) loc_Exact) as [mrs2 [E2 Hm]]; [lia | lia |].
    rewrite E2, Hm, Hd2, Htop.
    change (2 ^ 53 / 2 ^ (54 - 53)) with 4503599627370496.
    change (54 - 53) with 1. change (1024 - 53) with 971.
    replace (e + k + 1 <=? 971) with true by (symmetry; apply Z.leb_le; unfold k; lia).
    exists (Z.pos p2), 4503599627370496%positive, (e + k + 1).
    split; [reflexivity|]. split; [lia|]. right. split; [rewrite Htop; reflexivity | reflexivity].
  - assert (Hd2 : Z.pos (digits2_pos p2) = 53)
      by (apply digits2_pos_unique; change (2 ^ (53 - 1)) with (2 ^ 52); lia).
    destruct (shr_fexp_m p2 (e + k) loc_Exact) as [mrs2 [E2 Hm]]; [lia | lia |].
    rewrite E2, Hm, Hd2.
    change (53 - 53) with 0. change (2 ^ 0) with 1. change (1024 - 53) with 971.
    rewrite Z.div_1_r.
    replace (e + k + 0 <=? 971) with true by (symmetry; apply Z.leb_le; unfold k; lia).
    exists (Z.pos p2), p2, (e + k + 0).
    split; [reflexivity|]. split; [lia|]. left. split; [reflexivity | lia].
Qed.

Lemma float64_of_int_norm (n : Z) :
  0 < n < 2 ^ 53 ->
  exists m e,
    float64_of_int n = S754_finite false m e
    /\ Z.pos (digits2_pos m) = 53
    /\ -52 <= e <= 0
    /\ Z.pos m = n * 2 ^ (- e)
    /\ 2 ^ (52 + e) <= n < 2 ^ (53 + e).
Proof.
  intros [Hlo Hhi]. destruct n as [|p|p]; try lia.
  rewrite float64_of_int_pos by assumption.
  assert (Hd : Z.pos (digits2_pos p) <= 53) by (apply digits2_pos_le; lia).
  destruct (digits2_pos_bounds p) as [Dlo Dhi].
  destruct (Z.pos (digits2_pos p) - 53) as [|k|k] eqn:Hk; try lia.
  - exists p, 0. split; [reflexivity|]. split; [lia|]. split; [lia|].
    split; [simpl; lia|].
    replace (52 + 0) with (Z.pos (digits2_pos p) - 1) by lia.
    replace (53 + 0) with (Z.pos (digits2_pos p)) by lia. lia.
  - exists (Pos.iter xO p k), (Z.neg k).
    split; [reflexivity|].
    split; [rewrite iter_xO_digits, Pos2Z.inj_add; lia|].
    split; [lia|].
    split; [rewrite iter_xO_value; f_equal|].
    replace (52 + Z.neg k) with (Z.pos (digits2_pos p) - 1) by lia.
    replace (53 + Z.neg k) with (Z.pos (digits2_pos p)) by lia. lia.
Qed.

Lemma digits2_pos_ge (p : positive) (n : Z) :
  2 ^ (n - 1) <= Z.pos p -> n <= Z.pos (digits2_pos p).
Proof.
  intros Hp. destruct (digits2_pos_bounds p) as [_ Hhi].
  destruct (Z_le_gt_dec n (Z.pos (digits2_pos p))) as [|Hgt]; [assumption|].
  exfalso.
  assert (2 ^ Z.pos (digits2_pos p) <= 2 ^ (n - 1))
    by (apply Z.pow_le_mono_r; lia).
  lia.
Qed.

Lemma float64_1e9 :
  float64_of_int 1000000000 = S754_finite false 8388608000000000 (-23).
Proof. vm_compute. reflexivity. Qed.

Lemma div_eucl_div_mod (a b : Z) : Z.div_eucl a b = (a / b, a mod b).
Proof. unfold Z.div, Z.modulo. destruct (Z.div_eucl a b). reflexivity. Qed.

Lemma pow2_pos (n : Z) : 0 <= n -> 0 < 2 ^ n.
Proof. intros. apply Z.pow_pos_nonneg; lia. Qed.

Lemma pow2_succ (n : Z) : 0 <= n -> 2 ^ (n + 1) = 2 * 2 ^ n.
Proof. intros. rewrite Z.pow_add_r by lia. change (2 ^ 1) with 2. ring. Qed.

Lemma nanoseconds_below_one (nsec : Z) :
  0 < nsec < 1000000000 ->
  exists mq eq,
    float64_div (float64_of_int nsec) (float64_of_int 1000000000)
      = S754_finite false mq eq
    /\ -1074 <= eq < 0
    /\ 2 ^ 30 * Z.pos mq < (2 ^ 30 - 1) * 2 ^ (- eq).
Proof.
  intros Hn.
  destruct (float64_of_int_norm nsec) as [m1 [e1 [E1 [D1 [He1 [V1 B1]]]]]].
  { split; [lia|]. apply Z.lt_trans with (2 ^ 30); [lia|].
    apply Z.pow_lt_mono_r; lia. }
  assert (He1' : e1 <= -23).
  { destruct (Z_le_gt_dec e1 (-23)) as [|Hgt]; [assumption|]. exfalso.
    assert (2 ^ 30 <= 2 ^ (52 + e1)) by (apply Z.pow_le_mono_r; lia).
    change (2 ^ 30) with 1073741824 in *. lia. }
  destruct (digits2_pos_bounds m1) as [M1lo M1hi]. rewrite D1 in M1lo, M1hi.
  change (2 ^ (53 - 1)) with 4503599627370496 in M1lo.
  change (2 ^ 53) with 9007199254740992 in M1hi.
  rewrite E1, float64_1e9. unfold float64_div, SFdiv.
  assert (Hcore :
    SFdiv_core_binary prec64 emax64 (Z.pos m1) e1 (Z.pos 8388608000000000) (-23)
    = (Z.pos m1 * 2 ^ 53 / Z.pos 8388608000000000, e1 - 30,
       new_location (Z.pos 8388608000000000)
         ((Z.pos m1 * 2 ^ 53) mod Z.pos 8388608000000000))).
  { unfold SFdiv_core_binary, Zdigits2. rewrite D1.
    change (Z.pos (digits2_pos 8388608000000000)) with 53.
    unfold fexp, emin, prec64, emax64.
    replace (Z.min (Z.max (53 + e1 - (53 + -23) - 53) (3 - 1024 - 53)) (e1 - -23))
      with (e1 - 30) by lia.
    replace (e1 - -23 - (e1 - 30)) with 53 by lia.
    cbv iota beta. rewrite Z.shiftl_mul_pow2 by lia.
    rewrite div_eucl_div_mod. reflexivity. }
  rewrite Hcore. clear Hcore. cbn [xorb].
  set (Q := Z.pos m1 * 2 ^ 53 / Z.pos 8388608000000000).
  set (l := new_location _ _).
  (* the quotient, and how it compares with 1 *)
  set (P := 2 ^ (30 - e1)).
  assert (HP : 2 ^ 53 <= P) by (apply Z.pow_le_mono_r; lia).
  change (2 ^ 53) with 9007199254740992 in HP.
  assert (HQ : Q = nsec * P / 1000000000).
  { unfold Q, P. rewrite V1.
    replace (nsec * 2 ^ (- e1) * 2 ^ 53) with (nsec * 2 ^ (30 - e1) * 2 ^ 23).
    - change (Z.pos 8388608000000000) with (1000000000 * 2 ^ 23).
      apply Z.div_mul_cancel_r; lia.
    - replace (30 - e1) with (- e1 + 30) by lia.
      rewrite Z.pow_add_r by lia.
      change (2 ^ 53) with (2 ^ 30 * 2 ^ 23). ring. }
  assert (HQP : 1000000000 * Q <= 999999999 * P).
  { rewrite HQ. apply Z.le_trans with (nsec * P).
    - apply Z.mul_div_le. lia.
    - apply Z.mul_le_mono_nonneg_r; lia. }
  assert (HQlo : 4503599627370496 <= Q).
  { unfold Q. apply Z.div_le_lower_bound; [lia|].
    change (2 ^ 53) with 9007199254740992. lia. }
  assert (HQhi : Q < 18014398509481984).
  { unfold Q. apply Z.div_lt_upper_bound; [lia|].
    change (2 ^ 53) with 9007199254740992. lia. }
  destruct Q as [|q|q] eqn:EQ; try lia.
  assert (Dq : 53 <= Z.pos (digits2_pos q))
    by (apply digits2_pos_ge; change (2 ^ (53 - 1)) with 4503599627370496; lia).
  assert (Dq' : Z.pos (digits2_pos q) <= 54)
    by (apply digits2_pos_le; [lia|]; change (2 ^ 54) with 18014398509481984; lia).
  destruct (binary_round_aux_bracket q (e1 - 30) l) as [m2 [m3 [e3 [Er [Hm2 Hd]]]]];
    [lia | lia | lia |].
  unfold prec64, emax64. rewrite Er.
  exists m3, e3. split; [reflexivity|].
  change (2 ^ 30) with 1073741824.
  assert (Hk : Z.pos (digits2_pos q) - 53 = 0 \/ Z.pos (digits2_pos q) - 53 = 1) by lia.
  destruct Hk as [Hk|Hk]; rewrite Hk in Hm2, Hd.
  - change (2 ^ 0) with 1 in Hm2. rewrite Z.div_1_r in Hm2.
    destruct Hd as [[Hm3 He3]|[Hm3 He3]]; subst e3.
    + split; [lia|].
      replace (- (e1 - 30 + 0)) with (30 - e1) by lia. fold P. lia.
    + split; [lia|].
      assert (HP2 : P = 2 * 2 ^ (- (e1 - 30 + 0 + 1))).
      { unfold P. rewrite <- pow2_succ by lia. f_equal. lia. }
      lia.
  - change (2 ^ 1) with 2 in Hm2.
    assert (Hh : 2 * (Z.pos q / 2) <= Z.pos q) by (apply Z.mul_div_le; lia).
    assert (HP1 : P = 2 * 2 ^ (- (e1 - 30 + 1))).
    { unfold P. rewrite <- pow2_succ by lia. f_equal. lia. }
    destruct Hd as [[Hm3 He3]|[Hm3 He3]]; subst e3.
    + split; [lia|]. lia.
    + split; [lia|].
      assert (HP2 : 2 ^ (- (e1 - 30 + 1)) = 2 * 2 ^ (- (e1 - 30 + 1 + 1))).
      { rewrite <- pow2_succ by lia. f_equal. lia. }
      lia.
Qed.

Lemma shl_align_fst (m : positive) (e e' : Z) :
  e' <= e -> Z.pos (fst (shl_align m e e')) = Z.pos m * 2 ^ (e - e').
Proof.
  intros H. unfold shl_align.
  destruct (e' - e) as [|d|d] eqn:Hd; cbn [fst]; try lia.
  - replace (e - e') with 0 by lia. simpl. lia.
  - rewrite iter_xO_value. f_equal. f_equal. lia.
Qed.

Lemma add_below_one (sec : Z) (mq : positive) (eq : Z) :
  0 < sec < 2 ^ 34 -> -1074 <= eq < 0 ->
  2 ^ 30 * Z.pos mq < (2 ^ 30 - 1) * 2 ^ (- eq) ->
  let S := int_of_float64
             (float64_add (float64_of_int sec) (S754_finite false mq eq)) in
  sec <= S <= sec + 1 /\ (sec < 2 ^ 23 -> S = sec).
Proof.
  intros Hsec Heq Hq30.
  assert (Hpq : 0 < 2 ^ (- eq)) by (apply pow2_pos; lia).
  assert (Hq : Z.pos mq < 2 ^ (- eq)) by (change (2 ^ 30) with 1073741824 in Hq30; lia).
  destruct (float64_of_int_norm sec) as [mx [ex [Ex [Dx [Hex [Vx Bx]]]]]].
  { split; [lia|]. apply Z.lt_trans with (2 ^ 34); [lia|].
    apply Z.pow_lt_mono_r; lia. }
  rewrite Ex. unfold float64_add, SFadd. cbn [cond_Zopp].
  set (ez := Z.min ex eq).
  assert (Hez1 : ez <= ex) by (unfold ez; lia).
  assert (Hez2 : ez <= eq) by (unfold ez; lia).
  assert (Hez3 : -1074 <= ez < 0) by (unfold ez; lia).
  rewrite !shl_align_fst by assumption.
  set (Y := Z.pos mq * 2 ^ (eq - ez)).
  set (M := Z.pos mx * 2 ^ (ex - ez) + Y).
  (* the sum, between sec and sec + 1 *)
  assert (Hx : Z.pos mx * 2 ^ (ex - ez) = sec * 2 ^ (- ez)).
  { rewrite Vx, <- Z.mul_assoc, <- Z.pow_add_r by lia. f_equal. f_equal. lia. }
  assert (Hsplit : 2 ^ (- ez) = 2 ^ (- eq) * 2 ^ (eq - ez)).
  { rewrite <- Z.pow_add_r by lia. f_equal. lia. }
  assert (Hpd : 0 < 2 ^ (eq - ez)) by (apply pow2_pos; lia).
  assert (Hy : 0 < Y < 2 ^ (- ez)).
  { unfold Y. split; [apply Z.mul_pos_pos; lia|].
    rewrite Hsplit. apply Z.mul_lt_mono_pos_r; [exact Hpd | exact Hq]. }
  assert (Hy30 : 2 ^ 30 * Y < (2 ^ 30 - 1) * 2 ^ (- ez)).
  { unfold Y. rewrite Hsplit.
    replace (2 ^ 30 * (Z.pos mq * 2 ^ (eq - ez)))
      with (2 ^ 30 * Z.pos mq * 2 ^ (eq - ez)) by ring.
    replace ((2 ^ 30 - 1) * (2 ^ (- eq) * 2 ^ (eq - ez)))
      with ((2 ^ 30 - 1) * 2 ^ (- eq) * 2 ^ (eq - ez)) by ring.
    apply Z.mul_lt_mono_pos_r; [exact Hpd | exact Hq30]. }
  assert (HMlo : sec * 2 ^ (- ez) <= M) by (unfold M; lia).
  assert (HMhi : M < (sec + 1) * 2 ^ (- ez)) by (unfold M; lia).
  assert (HMhi30 : 2 ^ 30 * M < 2 ^ 30 * (sec + 1) * 2 ^ (- ez) - 2 ^ (- ez)).
  { unfold M. rewrite Hx. lia. }
  assert (Hpe : 0 < 2 ^ (- ez)) by (apply pow2_pos; lia).
  clearbody Y. clear Hy Hy30.
  destruct M as [|p|p] eqn:EM; try nia.
  destruct (digits2_pos_bounds p) as [Dlo Dhi].
  destruct (digits2_pos_bounds mx) as [Xlo _]. rewrite Dx in Xlo.
  assert (Dp : 53 <= Z.pos (digits2_pos p)).
  { apply digits2_pos_ge. apply Z.le_trans with (Z.pos mx); [exact Xlo|].
    rewrite <- EM. unfold M.
    assert (1 <= 2 ^ (ex - ez)) by (pose proof (pow2_pos (ex - ez)); lia).
    nia. }
  assert (Dp' : forall n, 0 <= n -> sec < 2 ^ n -> Z.pos (digits2_pos p) + ez <= n).
  { intros n Hn Hsn.
    destruct (Z_le_gt_dec (Z.pos (digits2_pos p) + ez) n) as [|Hgt]; [assumption|].
    exfalso.
    assert (H1 : 2 ^ (n + - ez) <= 2 ^ (Z.pos (digits2_pos p) - 1))
      by (apply Z.pow_le_mono_r; lia).
    rewrite Z.pow_add_r in H1 by lia.
    assert (sec + 1 <= 2 ^ n) by lia. nia. }
  pose proof (Dp' 34 ltac:(lia) ltac:(lia)) as Dp34.
  (* rounding *)
  unfold binary_normalize, binary_round, shl_align, fexp, emin, prec64, emax64.
  rewrite Z.max_l by lia.
  replace (Z.pos (digits2_pos p) + ez - 53 - ez)
    with (Z.pos (digits2_pos p) - 53) by lia.
  assert (Hnoshift :
    match Z.pos (digits2_pos p) - 53 with
    | Z.neg d => (Pos.iter xO p d, Z.pos (digits2_pos p) + ez - 53)
    | _ => (p, ez)
    end = (p, ez)).
  { destruct (Z.pos (digits2_pos p) - 53) eqn:Hd; try reflexivity; lia. }
  rewrite Hnoshift. clear Hnoshift.
  destruct (binary_round_aux_bracket p ez loc_Exact) as [m2 [m3 [e3 [Er [Hm2 Hd]]]]];
    [lia | lia | lia |].
  rewrite Er. clear Er.
  set (k := Z.pos (digits2_pos p) - 53) in *.
  set (j := - (ez + k)).
  assert (Hj : 19 <= j) by (unfold j, k; lia).
  assert (Hk : 0 <= k) by (unfold k; lia).
  assert (Hpow : 2 ^ (- ez) = 2 ^ k * 2 ^ j).
  { rewrite <- Z.pow_add_r by lia. f_equal. unfold j. lia. }
  assert (Hpk : 0 < 2 ^ k) by (apply pow2_pos; lia).
  assert (Hpj : 0 < 2 ^ j) by (apply pow2_pos; lia).
  assert (Hlo : sec * 2 ^ j <= m2).
  { apply Z.le_trans with (Z.pos p / 2 ^ k); [|lia].
    apply Z.div_le_lower_bound; [exact Hpk|]. rewrite Hpow in HMlo. lia. }
  assert (Hhi : m2 <= (sec + 1) * 2 ^ j).
  { assert (Z.pos p / 2 ^ k < (sec + 1) * 2 ^ j); [|lia].
    apply Z.div_lt_upper_bound; [exact Hpk|]. rewrite Hpow in HMhi. lia. }
  assert (Hint : int_of_float64 (S754_finite false m3 e3) = m2 / 2 ^ j).
  { unfold int_of_float64.
    destruct Hd as [[Hm3 He3]|[Hm3 He3]]; subst e3.
    - replace (0 <=? ez + k) with false by (symmetry; apply Z.leb_gt; lia).
      fold j. rewrite Hm3. apply Z.quot_div_nonneg; lia.
    - replace (0 <=? ez + k + 1) with false by (symmetry; apply Z.leb_gt; lia).
      rewrite Z.quot_div_nonneg by (try apply Z.lt_le_incl; try apply pow2_pos; lia).
      rewrite <- Hm3.
      replace j with (- (ez + k + 1) + 1) by (unfold j; lia).
      rewrite pow2_succ by lia.
      symmetry. apply Z.div_mul_cancel_l; [|lia].
      pose proof (pow2_pos (- (ez + k + 1))). lia. }
  cbv zeta. rewrite Hint. split.
  - split.
    + apply Z.div_le_lower_bound; [exact Hpj | lia].
    + apply Z.div_le_upper_bound; [exact Hpj | lia].
  - intros Hsmall.
    pose proof (Dp' 23 ltac:(lia) Hsmall) as Dp23.
    assert (Hj30 : 30 <= j) by (unfold j, k; lia).
    assert (H2j : 2 ^ 30 <= 2 ^ j) by (apply Z.pow_le_mono_r; lia).
    assert (Hstrict : m2 < (sec + 1) * 2 ^ j).
    { assert (Z.pos p / 2 ^ k < (sec + 1) * 2 ^ j - 1); [|lia].
      apply Z.div_lt_upper_bound; [exact Hpk|].
      rewrite Hpow in HMhi30.
      change (2 ^ 30) with 1073741824 in *.
      nia. }
    apply Z.le_antisymm.
    + assert (m2 / 2 ^ j < sec + 1); [|lia].
      apply Z.div_lt_upper_bound; [exact Hpj | lia].
    + apply Z.div_le_lower_bound; [exact Hpj | lia].
Qed.

Lemma Seconds_bracket (d : Duration) :
  0 <= d <= math_MaxInt64 ->
  Z.quot d Second <= int_of_float64 (Seconds d) <= Z.quot d Second + 1
  /\ (d < 2 ^ 23 * Second -> int_of_float64 (Seconds d) = Z.quot d Second).
Proof.
  intros Hd. unfold Seconds.
  change Second with 1000000000 in *. unfold math_MaxInt64 in Hd.
  rewrite Z.quot_div_nonneg, Z.rem_mod_nonneg by lia.
  pose proof (Z.mod_pos_bound d 1000000000 ltac:(lia)) as Hn.
  pose proof (Z.div_pos d 1000000000 ltac:(lia) ltac:(lia)) as Hs.
  assert (Hs' : d / 1000000000 < 2 ^ 34).
  { apply Z.div_lt_upper_bound; [lia|]. change (2 ^ 34) with 17179869184. lia. }
  assert (Hs23 : d < 2 ^ 23 * 1000000000 -> d / 1000000000 < 2 ^ 23).
  { intros H. apply Z.div_lt_upper_bound; lia. }
  set (sec := d / 1000000000) in *. set (nsec := d mod 1000000000) in *.
  destruct (Z.eq_dec nsec 0) as [Hz|Hnz].
  - rewrite Hz.
    replace (float64_div (float64_of_int 0) (float64_of_int 1000000000))
      with (S754_zero false) by (vm_compute; reflexivity).
    assert (E : int_of_float64 (float64_add (float64_of_int sec) (S754_zero false)) = sec).
    { destruct (Z.eq_dec sec 0) as [->|Hsz]; [reflexivity|].
      destruct (float64_of_int_norm sec) as [mx [ex [Ex _]]].
      { split; [lia|]. apply Z.lt_trans with (2 ^ 34); [lia|].
        apply Z.pow_lt_mono_r; lia. }
      rewrite Ex. cbn [float64_add SFadd]. rewrite <- Ex.
      apply int_of_float64_of_int.
      split; [lia|]. apply Z.lt_trans with (2 ^ 34); [lia|].
      apply Z.pow_lt_mono_r; lia. }
    rewrite E. split; [lia | reflexivity].
  - destruct (nanoseconds_below_one nsec) as [mq [eq [Eq [Heq Hq]]]]; [lia|].
    rewrite Eq.
    destruct (Z.eq_dec sec 0) as [->|Hsz].
    + assert (E : int_of_float64
                    (float64_add (float64_of_int 0) (S754_finite false mq eq)) = 0).
      { cbn. replace (0 <=? eq) with false by (symmetry; apply Z.leb_gt; lia).
        apply Z.quot_small. pose proof (pow2_pos (- eq)).
        change (2 ^ 30) with 1073741824 in Hq. lia. }
      rewrite E. split; [lia | reflexivity].
    + destruct (add_below_one sec mq eq) as [Hb He]; [lia | exact Heq | exact Hq |].
      split; [exact Hb|]. intros H. apply He. apply Hs23. exact H.
Qed.

(** ** The handler, step by step *)

Section Properties.
Context {host : Host}.
Implicit Types (c : Config) (next : ExtHandler) (w : ResponseWriter) (r : Request).
Implicit Types (tr : list Event).

(** Running the monad: unfold its operations and compute. *)
Ltac run_M :=
  repeat (unfold mbind, M_bind, mret, M_ret, get_self, emit, on_w,
            next_ServeHTTP, Logger_Printf, panic; cbn).

#[local] Arguments strings_HasPrefix : simpl never.
#[local] Arguments strings_TrimPrefix : simpl never.
#[local] Arguments http_Error : simpl never.
#[local] Arguments http_StripPrefix : simpl never.
#[local] Arguments Header_Set : simpl never.
#[local] Arguments cacheControlValue : simpl never.
#[local] Arguments Z.ltb : simpl never.

Lemma TrimPrefix_empty (s : string) : strings_TrimPrefix s "" = s.
Proof. unfold strings_TrimPrefix. rewrite HasPrefix_empty. reflexivity. Qed.

Lemma stripped_empty r : stripped "" r = r.
Proof.
  destruct r as [meth [p rp q]]. unfold stripped. simpl.
  rewrite !TrimPrefix_empty. reflexivity.
Qed.

Lemma Code_http_Error w msg code :
  Code w = None -> Code (http_Error w msg code) = Some code.
Proof.
  intros H. unfold http_Error, Write, WriteHeader, Header_Set. cbn.
  rewrite H. reflexivity.
Qed.

Lemma Body_http_Error w msg code :
  Body (http_Error w msg code) = Body w ++ msg ++ newline.
Proof.
  unfold http_Error, Write, WriteHeader, Header_Set. cbn.
  destruct (Code w); reflexivity.
Qed.

Lemma Header_http_Error w msg code :
  Header (http_Error w msg code) =
    <["X-Content-Type-Options" := ["nosniff"]]>
      (<["Content-Type" := ["text/plain; charset=utf-8"]]> (Header w)).
Proof.
  unfold http_Error, Write, WriteHeader, Header_Set. cbn.
  destruct (Code w); reflexivity.
Qed.

Lemma Header_http_Error_other w msg code key :
  key <> "Content-Type" -> key <> "X-Content-Type-Options" ->
  Header (http_Error w msg code) !! key = Header w !! key.
Proof.
  intros H1 H2. rewrite Header_http_Error.
  rewrite !lookup_insert_ne by congruence. reflexivity.
Qed.

(** The handler on a request outside of the prefix. *)
Lemma Handler_unmatched c next w r tr :
  strings_HasPrefix (Path (url r)) (StaticFilePrefix c) = false ->
  Handler next r (mkWorld (NewStaticMiddleware c) w tr) =
    Some (tt, mkWorld (NewStaticMiddleware c) (next w r)
                (tr ++ debug_line c "Passing request to next handler: %s" [Path (url r)]
                    ++ [NextServeHTTP w r])).
Proof.
  intros H. destruct c as [fsys root prefix d dbg lg]. simpl in H.
  unfold Handler, m_config, NewStaticMiddleware, debug_line, logger_of.
  destruct dbg, lg; run_M; rewrite H; run_M; rewrite <- ?app_assoc; reflexivity.
Qed.

(** [http.StripPrefix] around the file server, on a path with the prefix. *)
Lemma StripPrefix_fileServer {S} prefix fsys r (σ : World S) :
  strings_HasPrefix (Path (url r)) prefix = true ->
  http_StripPrefix prefix (fileServer fsys) r σ =
    if delegated prefix r
    then Some (tt, mkWorld (self σ)
                     (http_FileServer fsys (resp σ) (stripped prefix r))
                     (calls σ ++ [FileServerServeHTTP fsys (resp σ) (stripped prefix r)]))
    else Some (tt, mkWorld (self σ) (http_NotFound (resp σ) r) (calls σ)).
Proof.
  intros H. unfold http_StripPrefix, delegated.
  destruct (String.eqb prefix "") eqn:Hp.
  - apply String.eqb_eq in Hp. subst prefix.
    rewrite HasPrefix_empty, orb_true_r, stripped_empty. reflexivity.
  - apply String.eqb_neq in Hp.
    rewrite (TrimPrefix_shorter _ _ H Hp). cbn [andb].
    destruct (String.eqb (RawPath (url r)) "") eqn:Hraw; cbn [orb]; [reflexivity|].
    destruct (strings_HasPrefix (RawPath (url r)) prefix) eqn:Hrp.
    + rewrite (TrimPrefix_shorter _ _ Hrp Hp). reflexivity.
    + rewrite (TrimPrefix_not_shorter _ _ Hrp). reflexivity.
Qed.

(** [serveStaticFiles] when the file store cannot be rooted. *)
Lemma serveStaticFiles_error c w r tr err :
  fs_Sub (StaticFS c) (StaticRoot c) = inr err ->
  serveStaticFiles r (mkWorld (NewStaticMiddleware c) w tr) =
    Some (tt, mkWorld (NewStaticMiddleware c)
                (http_Error w (Error err) StatusInternalServerError)
                (tr ++ [Sub (StaticFS c) (StaticRoot c)]
                    ++ debug_line c "Error creating sub-filesystem: %s" [Error err])).
Proof.
  intros H. destruct c as [fsys root prefix d dbg lg]. simpl in H.
  unfold serveStaticFiles, m_config, call_fs_Sub, NewStaticMiddleware, debug_line, logger_of.
  destruct dbg, lg; run_M; rewrite H; run_M; rewrite <- ?app_assoc; reflexivity.
Qed.

(** [serveStaticFiles] when it can. *)
Lemma serveStaticFiles_rooted c w r tr staticFS :
  fs_Sub (StaticFS c) (StaticRoot c) = inl staticFS ->
  serveStaticFiles r (mkWorld (NewStaticMiddleware c) w tr) =
    http_StripPrefix (StaticFilePrefix c) (fileServer staticFS) r
      (mkWorld (NewStaticMiddleware c) (with_cache_control c w)
               (tr ++ [Sub (StaticFS c) (StaticRoot c)])).
Proof.
  intros H. destruct c as [fsys root prefix d dbg lg]. simpl in H.
  unfold serveStaticFiles, m_config, call_fs_Sub, NewStaticMiddleware, with_cache_control.
  destruct dbg, lg; run_M; rewrite H; run_M; destruct (0 <? d); reflexivity.
Qed.

(** The handler on a request with the prefix: the log line, then
    [serveStaticFiles]. *)
Lemma Handler_matched c next w r tr :
  strings_HasPrefix (Path (url r)) (StaticFilePrefix c) = true ->
  Handler next r (mkWorld (NewStaticMiddleware c) w tr) =
    serveStaticFiles r
      (mkWorld (NewStaticMiddleware c) w
               (tr ++ debug_line c "Serving static file: %s" [Path (url r)])).
Proof.
  intros H. destruct c as [fsys root prefix d dbg lg]. simpl in H.
  unfold Handler, m_config, NewStaticMiddleware, debug_line, logger_of.
  destruct dbg, lg; run_M; rewrite H; run_M; rewrite ?app_nil_r; reflexivity.
Qed.

(** A request with the prefix, from the constructor to the response. *)
Lemma ServeHTTP_matched c next w r :
  strings_HasPrefix (Path (url r)) (StaticFilePrefix c) = true ->
  ServeHTTP (NewStaticMiddleware c) next w r =
    Some
      match fs_Sub (StaticFS c) (StaticRoot c) with
      | inr err =>
          mkWorld (NewStaticMiddleware c)
            (http_Error w (Error err) StatusInternalServerError)
            (debug_line c "Serving static file: %s" [Path (url r)]
               ++ [Sub (StaticFS c) (StaticRoot c)]
               ++ debug_line c "Error creating sub-filesystem: %s" [Error err])
      | inl staticFS =>
          if delegated (StaticFilePrefix c) r
          then mkWorld (NewStaticMiddleware c)
                 (http_FileServer staticFS (with_cache_control c w)
                    (stripped (StaticFilePrefix c) r))
                 (debug_line c "Serving static file: %s" [Path (url r)]
                    ++ [Sub (StaticFS c) (StaticRoot c);
                        FileServerServeHTTP staticFS (with_cache_control c w)
                          (stripped (StaticFilePrefix c) r)])
          else mkWorld (NewStaticMiddleware c)
                 (http_NotFound (with_cache_control c w) r)
                 (debug_line c "Serving static file: %s" [Path (url r)]
                    ++ [Sub (StaticFS c) (StaticRoot c)])
      end.
Proof.
  intros H. unfold ServeHTTP. rewrite (Handler_matched _ _ _ _ _ H).
  destruct (fs_Sub (StaticFS c) (StaticRoot c)) as [staticFS|err] eqn:Hsub.
  - rewrite (serveStaticFiles_rooted _ _ _ _ _ Hsub).
    rewrite (StripPrefix_fileServer _ _ _ _ H).
    destruct (delegated (StaticFilePrefix c) r); cbn;
      rewrite <- ?app_assoc; reflexivity.
  - rewrite (serveStaticFiles_error _ _ _ _ _ Hsub). reflexivity.
Qed.

(** A request outside of the prefix, likewise. *)
Lemma ServeHTTP_unmatched c next w r :
  strings_HasPrefix (Path (url r)) (StaticFilePrefix c) = false ->
  ServeHTTP (NewStaticMiddleware c) next w r =
    Some (mkWorld (NewStaticMiddleware c) (next w r)
            (debug_line c "Passing request to next handler: %s" [Path (url r)]
               ++ [NextServeHTTP w r])).
Proof.
  intros H. unfold ServeHTTP. rewrite (Handler_unmatched _ _ _ _ _ H).
  reflexivity.
Qed.

Lemma next_calls_app tr1 tr2 :
  next_calls (tr1 ++ tr2) = (next_calls tr1 ++ next_calls tr2)%list.
Proof.
  induction tr1 as [|ev tr1 IH]; [reflexivity|].
  destruct ev; cbn; rewrite IH; reflexivity.
Qed.

Lemma file_server_calls_app tr1 tr2 :
  file_server_calls (tr1 ++ tr2) = (file_server_calls tr1 ++ file_server_calls tr2)%list.
Proof.
  induction tr1 as [|ev tr1 IH]; [reflexivity|].
  destruct ev; cbn; rewrite IH; reflexivity.
Qed.

Lemma sub_calls_app tr1 tr2 :
  sub_calls (tr1 ++ tr2) = (sub_calls tr1 ++ sub_calls tr2)%list.
Proof.
  induction tr1 as [|ev tr1 IH]; [reflexivity|].
  destruct ev; cbn; rewrite IH; reflexivity.
Qed.

Lemma debug_line_calls c format v :
  next_calls (debug_line c format v) = []
  /\ file_server_calls (debug_line c format v) = []
  /\ sub_calls (debug_line c format v) = [].
Proof. unfold debug_line. destruct (Debug c); repeat split. Qed.

(** Reading a trace of the shapes above. *)
Ltac read_trace :=
  rewrite ?next_calls_app, ?file_server_calls_app, ?sub_calls_app;
  repeat match goal with
         | |- context [next_calls (debug_line ?c ?f ?v)] =>
             rewrite (proj1 (debug_line_calls c f v))
         | |- context [file_server_calls (debug_line ?c ?f ?v)] =>
             rewrite (proj1 (proj2 (debug_line_calls c f v)))
         | |- context [sub_calls (debug_line ?c ?f ?v)] =>
             rewrite (proj2 (proj2 (debug_line_calls c f v)))
         end;
  cbn [next_calls file_server_calls sub_calls app].

Lemma Code_with_cache_control c w : Code (with_cache_control c w) = Code w.
Proof. unfold with_cache_control. destruct (0 <? CacheDuration c); reflexivity. Qed.

Lemma Header_with_cache_control_pos c w :
  0 < CacheDuration c ->
  Header (with_cache_control c w) !! "Cache-Control"
    = Some [cacheControlValue (CacheDuration c)].
Proof.
  intros H. unfold with_cache_control.
  replace (0 <? CacheDuration c) with true by (symmetry; apply Z.ltb_lt; exact H).
  cbn. apply lookup_insert_eq.
Qed.

Lemma with_cache_control_nonpos c w :
  CacheDuration c <= 0 -> with_cache_control c w = w.
Proof.
  intros H. unfold with_cache_control.
  replace (0 <? CacheDuration c) with false by (symmetry; apply Z.ltb_ge; exact H).
  reflexivity.
Qed.

(** ** The claims *)

(** C1. The wrapped handler tests the request path against the prefix byte
    by byte, with no folding of case and no pattern: the test holds exactly
    when the path is the prefix followed by something.  If it holds, the
    handler runs the file-serving operation (after the debug line, if
    any) and never calls the next handler.  Otherwise it calls the next
    handler exactly once, with the request it was given and the response
    writer as it was given, so that the middleware has written no header
    and no status, and the response is what the next handler makes of it. *)
Theorem C1_prefix_dispatch c next w r :
  let m := NewStaticMiddleware c in
  let path := Path (url r) in
  let prefix := StaticFilePrefix c in
  (strings_HasPrefix path prefix = true <-> exists rest, path = prefix ++ rest)
  /\ (strings_HasPrefix path prefix = true ->
      ServeHTTP m next w r
        = snd <$> serveStaticFiles r
            (mkWorld m w (debug_line c "Serving static file: %s" [path]))
      /\ exists σ, ServeHTTP m next w r = Some σ
           /\ next_calls (calls σ) = []
           /\ sub_calls (calls σ) = [(StaticFS c, StaticRoot c)])
  /\ (strings_HasPrefix path prefix = false ->
      exists σ, ServeHTTP m next w r = Some σ
        /\ next_calls (calls σ) = [(w, r)]
        /\ resp σ = next w r
        /\ sub_calls (calls σ) = []
        /\ file_server_calls (calls σ) = []).
Proof.
  intros m path prefix. split; [apply HasPrefix_spec|]. split.
  - intros H. split.
    + unfold ServeHTTP. subst m. rewrite (Handler_matched _ _ _ _ _ H).
      reflexivity.
    + subst m. rewrite (ServeHTTP_matched _ _ _ _ H).
      eexists. split; [reflexivity|].
      destruct (fs_Sub (StaticFS c) (StaticRoot c)) as [staticFS|err];
        [destruct (delegated (StaticFilePrefix c) r)|];
        cbn [calls]; read_trace; split; reflexivity.
  - intros H. subst m. rewrite (ServeHTTP_unmatched _ _ _ _ H).
    eexists. split; [reflexivity|]. cbn [calls resp].
    read_trace. repeat split; reflexivity.
Qed.

(** C2. For a request whose path has the prefix the next handler is never
    called, whatever comes of serving the file.  When the file store is
    rooted and the remaining path names no file in the rooted view -- the
    file server, whose business resolving a path is, answers 404 to a fresh
    response writer then -- the status of the response is 404. *)
Theorem C2_not_found_terminal c next w r (resolves : FS -> Request -> bool) :
  strings_HasPrefix (Path (url r)) (StaticFilePrefix c) = true ->
  exists σ, ServeHTTP (NewStaticMiddleware c) next w r = Some σ
    /\ next_calls (calls σ) = []
    /\ forall staticFS,
         fs_Sub (StaticFS c) (StaticRoot c) = inl staticFS ->
         (forall w' r', Code w' = None -> resolves staticFS r' = false ->
                        Code (http_FileServer staticFS w' r') = Some StatusNotFound) ->
         Code w = None ->
         resolves staticFS (stripped (StaticFilePrefix c) r) = false ->
         Code (resp σ) = Some StatusNotFound.
Proof.
  intros H. rewrite (ServeHTTP_matched _ _ _ _ H).
  eexists. split; [reflexivity|]. split.
  - destruct (fs_Sub (StaticFS c) (StaticRoot c)) as [staticFS|err];
      [destruct (delegated (StaticFilePrefix c) r)|];
      cbn [calls]; read_trace; reflexivity.
  - intros staticFS Hsub Hfs Hw Hres. rewrite Hsub.
    destruct (delegated (StaticFilePrefix c) r); cbn [resp].
    + apply Hfs; [rewrite Code_with_cache_control; exact Hw | exact Hres].
    + apply Code_http_Error. rewrite Code_with_cache_control. exact Hw.
Qed.

(** C10. With the empty prefix every path passes the test: the middleware
    takes every request, and the next handler is never called. *)
Theorem C10_empty_prefix c next w r :
  StaticFilePrefix c = "" ->
  strings_HasPrefix (Path (url r)) (StaticFilePrefix c) = true
  /\ exists σ, ServeHTTP (NewStaticMiddleware c) next w r = Some σ
       /\ next_calls (calls σ) = [].
Proof.
  intros Hp.
  assert (H : strings_HasPrefix (Path (url r)) (StaticFilePrefix c) = true)
    by (rewrite Hp; apply HasPrefix_empty).
  split; [exact H|].
  rewrite (ServeHTTP_matched _ _ _ _ H).
  eexists. split; [reflexivity|].
  destruct (fs_Sub (StaticFS c) (StaticRoot c)) as [staticFS|err];
    [destruct (delegated (StaticFilePrefix c) r)|];
    cbn [calls]; read_trace; reflexivity.
Qed.

(** C6. The constructor puts the default logger, which writes to the
    standard output, where debugging is on and no logger is given; in
    every other case the middleware holds the configuration it was given,
    and in every case all the other fields are the ones given. *)
Theorem C6_constructor c :
  let c' := config (NewStaticMiddleware c) in
  (Debug c = true -> Logger_ c = None ->
     Logger_ c' = Some (log_New os_Stdout "DEBUG: " log_LstdFlags))
  /\ (~ (Debug c = true /\ Logger_ c = None) -> c' = c)
  /\ StaticFS c' = StaticFS c
  /\ StaticRoot c' = StaticRoot c
  /\ StaticFilePrefix c' = StaticFilePrefix c
  /\ CacheDuration c' = CacheDuration c
  /\ Debug c' = Debug c.
Proof.
  destruct c as [fsys root prefix d dbg lg].
  unfold NewStaticMiddleware. cbn.
  destruct dbg, lg; cbn; repeat split; try reflexivity; try discriminate.
  intros H. exfalso. apply H. split; reflexivity.
Qed.


(** C4, as the code has it.  When the file store cannot be rooted, a
    request with the prefix is answered by [http.Error] with the message
    of the error and the status 500: on a fresh response writer the status
    is 500, the content type is plain text, and the body is the message
    followed by a line feed.  Rooting is tried once, neither the next
    handler nor the file server is called, and the configuration stays. *)
Theorem C4_rooting_failure c next w r err :
  strings_HasPrefix (Path (url r)) (StaticFilePrefix c) = true ->
  fs_Sub (StaticFS c) (StaticRoot c) = inr err ->
  exists σ, ServeHTTP (NewStaticMiddleware c) next w r = Some σ
    /\ resp σ = http_Error w (Error err) StatusInternalServerError
    /\ (Code w = None -> Code (resp σ) = Some StatusInternalServerError)
    /\ Body (resp σ) = Body w ++ Error err ++ newline
    /\ Header (resp σ) !! "Content-Type" = Some ["text/plain; charset=utf-8"]
    /\ sub_calls (calls σ) = [(StaticFS c, StaticRoot c)]
    /\ next_calls (calls σ) = []
    /\ file_server_calls (calls σ) = []
    /\ self σ = NewStaticMiddleware c.
Proof.
  intros H Hsub. rewrite (ServeHTTP_matched _ _ _ _ H), Hsub.
  eexists. split; [reflexivity|]. cbn [resp calls self].
  split; [reflexivity|].
  split; [apply Code_http_Error|].
  split; [apply Body_http_Error|].
  split.
  { rewrite Header_http_Error, lookup_insert_ne by discriminate.
    apply lookup_insert_eq. }
  read_trace. repeat split; reflexivity.
Qed.

(** C5, as the code has it.  When the file store is rooted, a request
    with the prefix goes through [http.StripPrefix].  If its escaped path
    is empty or has the prefix too, the file server is called exactly
    once, rooted at the view that [fs.Sub] made of the configured file
    store and root, on a request whose path is the path with the leading
    prefix removed.  If not, the file server is not called, and
    [http.NotFound] answers. *)
Theorem C5_delegation c next w r staticFS :
  strings_HasPrefix (Path (url r)) (StaticFilePrefix c) = true ->
  fs_Sub (StaticFS c) (StaticRoot c) = inl staticFS ->
  exists σ, ServeHTTP (NewStaticMiddleware c) next w r = Some σ
    /\ sub_calls (calls σ) = [(StaticFS c, StaticRoot c)]
    /\ (delegated (StaticFilePrefix c) r = true ->
        exists r',
          file_server_calls (calls σ) = [(staticFS, with_cache_control c w, r')]
          /\ Path (url r) = StaticFilePrefix c ++ Path (url r')
          /\ Path (url r') = slice_from (String.length (StaticFilePrefix c)) (Path (url r))
          /\ Method r' = Method r /\ RawQuery (url r') = RawQuery (url r)
          /\ resp σ = http_FileServer staticFS (with_cache_control c w) r')
    /\ (delegated (StaticFilePrefix c) r = false ->
        file_server_calls (calls σ) = []
        /\ resp σ = http_NotFound (with_cache_control c w) r).
Proof.
  intros H Hsub. rewrite (ServeHTTP_matched _ _ _ _ H), Hsub.
  eexists. split; [reflexivity|].
  destruct (delegated (StaticFilePrefix c) r); cbn [resp calls].
  - read_trace. split; [reflexivity|]. split; [|discriminate].
    intros _. exists (stripped (StaticFilePrefix c) r).
    split; [reflexivity|]. cbn [stripped url Path Method RawQuery].
    split; [apply TrimPrefix_HasPrefix; exact H|].
    split; [unfold strings_TrimPrefix; rewrite H; reflexivity|].
    repeat split; reflexivity.
  - read_trace. split; [reflexivity|]. split; [discriminate|].
    intros _. split; reflexivity.
Qed.

(** C3, as the code has it.  For a request with the prefix:
    with a positive [cacheDuration] D and the file store rooted, a response
    of status 200 carries Cache-Control: public, max-age=S, where S is
    [int(D.Seconds())], the seconds of D as a [float64], the fraction
    discarded (the file server leaves the header as it finds it on such a
    response).  S is D in whole seconds or one more; it is D in whole
    seconds whenever D is a whole number of seconds, and whenever D is
    below 2^23 seconds.  With a [cacheDuration] of zero (or below) the
    middleware sets no such header: none is on the response, rooted or
    not, unless it was on the response writer before or the file server
    adds it. *)
Theorem C3_cache_control c next w r :
  strings_HasPrefix (Path (url r)) (StaticFilePrefix c) = true ->
  exists σ, ServeHTTP (NewStaticMiddleware c) next w r = Some σ
    /\ (forall staticFS,
          0 < CacheDuration c ->
          fs_Sub (StaticFS c) (StaticRoot c) = inl staticFS ->
          (forall w' r',
             Code (http_FileServer staticFS w' r') = Some StatusOK ->
             Header (http_FileServer staticFS w' r') !! "Cache-Control"
               = Header w' !! "Cache-Control") ->
          Code (resp σ) = Some StatusOK ->
          Header (resp σ) !! "Cache-Control"
            = Some ["public, max-age="
                      ++ fmt_d (int_of_float64 (Seconds (CacheDuration c)))])
    /\ (0 < CacheDuration c <= math_MaxInt64 ->
        let S := int_of_float64 (Seconds (CacheDuration c)) in
        Z.quot (CacheDuration c) Second <= S <= Z.quot (CacheDuration c) Second + 1
        /\ (Z.rem (CacheDuration c) Second = 0 -> S = Z.quot (CacheDuration c) Second)
        /\ (CacheDuration c < 2 ^ 23 * Second -> S = Z.quot (CacheDuration c) Second))
    /\ (CacheDuration c <= 0 ->
        Header w !! "Cache-Control" = None ->
        (forall fsys w' r',
           Header w' !! "Cache-Control" = None ->
           Header (http_FileServer fsys w' r') !! "Cache-Control" = None) ->
        Header (resp σ) !! "Cache-Control" = None).
Proof.
  intros H. rewrite (ServeHTTP_matched _ _ _ _ H).
  eexists. split; [reflexivity|]. split; [|split].
  - intros staticFS Hd Hsub Hkeep. rewrite Hsub.
    destruct (delegated (StaticFilePrefix c) r); cbn [resp]; intros Hcode.
    + rewrite (Hkeep _ _ Hcode). apply Header_with_cache_control_pos. exact Hd.
    + unfold http_NotFound.
      rewrite Header_http_Error_other by discriminate.
      apply Header_with_cache_control_pos. exact Hd.
  - intros Hd. cbv zeta.
    destruct (Seconds_bracket (CacheDuration c)) as [Hb He]; [lia|].
    split; [exact Hb|]. split; [|exact He].
    intros Hrem.
    pose proof (Z.quot_rem' (CacheDuration c) Second) as Hqr.
    rewrite Hrem, Z.add_0_r, Z.mul_comm in Hqr.
    rewrite Hqr at 1. apply Seconds_whole.
    unfold Second, Nanosecond, math_MaxInt64 in *.
    assert (0 <= Z.quot (CacheDuration c) (1000000000 * 1)) by (apply Z.quot_pos; lia).
    split; [assumption|]. apply Z.lt_le_trans with (2 ^ 34); [lia|].
    apply Z.pow_le_mono_r; lia.
  - intros Hd Hw Hadd.
    destruct (fs_Sub (StaticFS c) (StaticRoot c)) as [staticFS|err];
      [destruct (delegated (StaticFilePrefix c) r)|]; cbn [resp].
    + apply Hadd. rewrite with_cache_control_nonpos by exact Hd. exact Hw.
    + unfold http_NotFound. rewrite Header_http_Error_other by discriminate.
      rewrite with_cache_control_nonpos by exact Hd. exact Hw.
    + rewrite Header_http_Error_other by discriminate. exact Hw.
Qed.

(** C9, as the code has it.  For a request with the prefix, a positive
    [cacheDuration] and the file store rooted, the Cache-Control header is
    on the response writer when the file server is called, so that it is
    on the response, whatever its status, if the file server leaves it
    there, and on the 404 that [http.StripPrefix] answers itself.  When
    the file store cannot be rooted the middleware never sets the header:
    it is on the 500 response only if it was on the response writer before. *)
Theorem C9_header_before_delegation c next w r :
  strings_HasPrefix (Path (url r)) (StaticFilePrefix c) = true ->
  exists σ, ServeHTTP (NewStaticMiddleware c) next w r = Some σ
    /\ (forall staticFS,
          0 < CacheDuration c ->
          fs_Sub (StaticFS c) (StaticRoot c) = inl staticFS ->
          (forall fsys w' r',
             In (fsys, w', r') (file_server_calls (calls σ)) ->
             Header w' !! "Cache-Control"
               = Some [cacheControlValue (CacheDuration c)]
             /\ resp σ = http_FileServer fsys w' r')
          /\ (file_server_calls (calls σ) = [] ->
              Header (resp σ) !! "Cache-Control"
                = Some [cacheControlValue (CacheDuration c)])
          /\ ((forall w' r',
                 Header (http_FileServer staticFS w' r') !! "Cache-Control"
                   = Header w' !! "Cache-Control") ->
              Header (resp σ) !! "Cache-Control"
                = Some [cacheControlValue (CacheDuration c)]))
    /\ (forall err,
          fs_Sub (StaticFS c) (StaticRoot c) = inr err ->
          Header (resp σ) !! "Cache-Control" = Header w !! "Cache-Control"
          /\ (Code w = None -> Code (resp σ) = Some StatusInternalServerError)).
Proof.
  intros H. rewrite (ServeHTTP_matched _ _ _ _ H).
  eexists. split; [reflexivity|]. split.
  - intros staticFS Hd Hsub. rewrite Hsub.
    destruct (delegated (StaticFilePrefix c) r); cbn [resp calls]; read_trace.
    + split; [|split].
      * intros fsys w' r' [Heq|[]]. inversion Heq; subst.
        split; [apply Header_with_cache_control_pos; exact Hd | reflexivity].
      * discriminate.
      * intros Hkeep. rewrite Hkeep.
        apply Header_with_cache_control_pos. exact Hd.
    + split; [|split].
      * intros fsys w' r' [].
      * intros _. unfold http_NotFound.
        rewrite Header_http_Error_other by discriminate.
        apply Header_with_cache_control_pos. exact Hd.
      * intros _. unfold http_NotFound.
        rewrite Header_http_Error_other by discriminate.
        apply Header_with_cache_control_pos. exact Hd.
  - intros err Hsub. rewrite Hsub. cbn [resp]. split.
    + apply Header_http_Error_other; discriminate.
    + apply Code_http_Error.
Qed.


(** Nothing the handler does writes to the struct behind [m], however
    the struct was made. *)
Lemma ServeHTTP_self (m : StaticMiddleware) next w r (σ : World StaticMiddleware) :
  ServeHTTP m next w r = Some σ -> self σ = m.
Proof.
  destruct m as [[fsys root prefix d dbg lg]].
  unfold ServeHTTP, Handler, serveStaticFiles, m_config, call_fs_Sub,
    http_StripPrefix, fileServer.
  run_M.
  destruct (strings_HasPrefix (Path (url r)) prefix), dbg, lg;
    run_M; try discriminate;
    try (intros [= <-]; reflexivity);
    destruct (fs_Sub fsys root); run_M; try discriminate;
    try (intros [= <-]; reflexivity);
    destruct (0 <? d); run_M;
    destruct (String.eqb prefix ""); run_M;
    try (intros [= <-]; reflexivity);
    match goal with
    | |- context [if ?b then _ else _] => destruct b
    end; run_M; intros [= <-]; reflexivity.
Qed.

(** C7. Handling a request leaves the configuration the middleware holds
    as it is, and so does any sequence of requests; each response of the
    sequence, and each trace, is then the one that the request gets from
    the middleware as the constructor made it. *)
Theorem C7_config_immutable c next :
  (forall (m : StaticMiddleware) w r σ,
     ServeHTTP m next w r = Some σ -> self σ = m /\ config (self σ) = config m)
  /\ (forall w r, exists σ,
        ServeHTTP (NewStaticMiddleware c) next w r = Some σ
        /\ self σ = NewStaticMiddleware c)
  /\ (forall reqs, exists out,
        serveAll (NewStaticMiddleware c) next reqs
          = Some (NewStaticMiddleware c, out)
        /\ Forall2 (fun wr o =>
                      ServeHTTP (NewStaticMiddleware c) next (fst wr) (snd wr)
                        = Some (mkWorld (NewStaticMiddleware c) (fst o) (snd o)))
                   reqs out).
Proof.
  assert (Hone : forall w r, exists σ,
             ServeHTTP (NewStaticMiddleware c) next w r = Some σ
             /\ self σ = NewStaticMiddleware c).
  { intros w r.
    destruct (strings_HasPrefix (Path (url r)) (StaticFilePrefix c)) eqn:H.
    - rewrite (ServeHTTP_matched _ _ _ _ H). eexists. split; [reflexivity|].
      destruct (fs_Sub (StaticFS c) (StaticRoot c));
        [destruct (delegated (StaticFilePrefix c) r)|]; reflexivity.
    - rewrite (ServeHTTP_unmatched _ _ _ _ H). eexists.
      split; reflexivity. }
  split; [|split].
  - intros m w r σ H. apply ServeHTTP_self in H. rewrite H. split; reflexivity.
  - exact Hone.
  - induction reqs as [|[w r] reqs IH].
    + exists []. split; [reflexivity | constructor].
    + destruct (Hone w r) as [σ [Hσ Hself]].
      destruct IH as [out [Hall Hout]].
      exists ((resp σ, calls σ) :: out). cbn [serveAll].
      rewrite Hσ, Hself, Hall. split; [reflexivity|].
      constructor; [|exact Hout].
      cbn [fst snd]. rewrite Hσ. f_equal.
      destruct σ as [s w' tr]. cbn in Hself |- *. rewrite Hself. reflexivity.
Qed.

(** C8. The variant that roots the file store once, at construction, and
    the middleware as it is, which roots it at every request, give every
    request the same response, the same log lines and the same calls of
    the next handler and of the file server. *)
Theorem C8_cached_equivalent c next w r :
  observe <$> CachedServeHTTP (NewCachedMiddleware c) next w r
  = observe <$> ServeHTTP (NewStaticMiddleware c) next w r.
Proof.
  destruct (strings_HasPrefix (Path (url r)) (StaticFilePrefix c)) eqn:H.
  - rewrite (ServeHTTP_matched _ _ _ _ H).
    unfold CachedServeHTTP, CachedHandler, serveStaticFilesCached, c_config,
      NewCachedMiddleware, NewStaticMiddleware, with_cache_control,
      debug_line, logger_of.
    destruct c as [fsys root prefix d dbg lg]. cbn in H |- *.
    destruct (fs_Sub fsys root) as [staticFS|err] eqn:Hsub;
      destruct dbg, lg; run_M; rewrite H; run_M;
      try reflexivity;
      destruct (0 <? d); run_M;
      rewrite (StripPrefix_fileServer _ _ _ _ H);
      destruct (delegated prefix r); reflexivity.
  - rewrite (ServeHTTP_unmatched _ _ _ _ H).
    unfold CachedServeHTTP, CachedHandler, c_config,
      NewCachedMiddleware, NewStaticMiddleware, debug_line, logger_of.
    destruct c as [fsys root prefix d dbg lg]. cbn in H |- *.
    destruct dbg, lg; run_M; rewrite H; run_M; reflexivity.
Qed.

End Properties.

(** ** The claims on the host of the tests *)

Section OnTestHost.
Import TestHost.

Lemma Code_serveError keepHeaders w text code :
  Code w = None -> Code (serveError keepHeaders w text code) = Some code.
Proof.
  intros H. unfold serveError. apply Code_http_Error.
  destruct keepHeaders; [exact H | exact H].
Qed.

(** The file server of the tests answers 404 where no file is. *)
Lemma FileServer_not_found keepHeaders fsys w r :
  Code w = None -> found fsys r = false ->
  Code (FileServer keepHeaders fsys w r) = Some StatusNotFound.
Proof.
  unfold found, FileServer. intros Hw.
  destruct (Open fsys (name_of r)); [discriminate|].
  intros _. apply Code_serveError. exact Hw.
Qed.

(** With [keepHeaders] it leaves Cache-Control as it finds it. *)
Lemma FileServer_keeps_cache_control fsys w r :
  Header (FileServer true fsys w r) !! "Cache-Control" = Header w !! "Cache-Control".
Proof.
  unfold FileServer. destruct (Open fsys (name_of r)).
  - unfold Write, WriteHeader, Header_Set. cbn.
    destruct (Code w); cbn; apply lookup_insert_ne; discriminate.
  - unfold serveError. apply Header_http_Error_other; discriminate.
Qed.

Lemma C1_witness :
  (exists σ,
     @ServeHTTP go122 (NewStaticMiddleware (staticConfig go122 mockFS "static" 0 true))
       nextHandler fresh (GET "/Static/testfile.css") = Some σ
     /\ next_calls (calls σ) = [(fresh, GET "/Static/testfile.css")]
     /\ resp σ = nextHandler fresh (GET "/Static/testfile.css"))
  /\ (exists σ,
        @ServeHTTP go122 (NewStaticMiddleware (staticConfig go122 mockFS "static" 0 true))
          nextHandler fresh (GET "/staticfoo") = Some σ
        /\ next_calls (calls σ) = []).
Proof.
  split.
  - destruct (proj2 (proj2 (@C1_prefix_dispatch go122
                              (staticConfig go122 mockFS "static" 0 true)
                              nextHandler fresh (GET "/Static/testfile.css")))
                eq_refl)
      as [σ [Hσ [Hnext [Hresp _]]]].
    exists σ. split; [exact Hσ|]. split; [exact Hnext | exact Hresp].
  - destruct (proj2 (proj1 (proj2 (@C1_prefix_dispatch go122
                                     (staticConfig go122 mockFS "static" 0 true)
                                     nextHandler fresh (GET "/staticfoo")))
                       eq_refl))
      as [σ [Hσ [Hnext _]]].
    exists σ. split; [exact Hσ | exact Hnext].
Defined.

Lemma C6_witness :
  Logger_ (config (NewStaticMiddleware (staticConfig go122 mockFS "static" 0 true)))
  = Some (log_New os_Stdout "DEBUG: " log_LstdFlags).
Proof.
  exact (proj1 (@C6_constructor go122 (staticConfig go122 mockFS "static" 0 true))
           eq_refl eq_refl).
Defined.

Lemma C7_witness :
  exists out,
    @serveAll go122
      (NewStaticMiddleware (staticConfig go122 mockFS "static" Hour true))
      nextHandler
      [(fresh, GET "/static/testfile.css"); (fresh, GET "/other/path");
       (fresh, GET "/static/testfile.css")]
    = Some (NewStaticMiddleware (staticConfig go122 mockFS "static" Hour true), out)
    /\ length out = 3%nat.
Proof.
  destruct (proj2 (proj2 (@C7_config_immutable go122
                            (staticConfig go122 mockFS "static" Hour true)
                            nextHandler))
              [(fresh, GET "/static/testfile.css"); (fresh, GET "/other/path");
               (fresh, GET "/static/testfile.css")])
    as [out [Hout Hall]].
  exists out. split; [exact Hout|].
  symmetry. exact (Forall2_length _ _ _ Hall).
Defined.

Lemma C2_witness :
  exists σ,
    @ServeHTTP go122 (NewStaticMiddleware (staticConfig go122 mockFS "static" 0 false))
      nextHandler fresh (GET "/static/testfile.txt") = Some σ
    /\ next_calls (calls σ) = []
    /\ Code (resp σ) = Some StatusNotFound.
Proof.
  destruct (@C2_not_found_terminal go122
              (staticConfig go122 mockFS "static" 0 false)
              nextHandler fresh (GET "/static/testfile.txt") found eq_refl)
    as [σ [Hσ [Hnext H404]]].
  exists σ. split; [exact Hσ|]. split; [exact Hnext|].
  apply (H404 (subFS mockFS "static")).
  - reflexivity.
  - intros w' r'. apply FileServer_not_found.
  - reflexivity.
  - vm_compute. reflexivity.
Defined.

Lemma C10_witness :
  exists σ,
    @ServeHTTP go122 (NewStaticMiddleware emptyPrefixConfig)
      nextHandler fresh (GET "/other/path") = Some σ
    /\ next_calls (calls σ) = [].
Proof.
  exact (proj2 (@C10_empty_prefix go122 emptyPrefixConfig
                  nextHandler fresh (GET "/other/path") eq_refl)).
Defined.

Lemma C4_witness :
  exists σ,
    @ServeHTTP go122 (NewStaticMiddleware (staticConfig go122 mockFS "./static" 0 true))
      nextHandler fresh (GET "/static/testfile.css") = Some σ
    /\ Code (resp σ) = Some StatusInternalServerError
    /\ Body (resp σ) = "sub ./static: invalid argument" ++ newline
    /\ next_calls (calls σ) = [].
Proof.
  destruct (@C4_rooting_failure go122
              (staticConfig go122 mockFS "./static" 0 true)
              nextHandler fresh (GET "/static/testfile.css")
              (PathError "sub" "./static" fs_ErrInvalid) eq_refl eq_refl)
    as [σ [Hσ [_ [Hcode [Hbody [_ [_ [Hnext _]]]]]]]].
  exists σ. split; [exact Hσ|]. split; [exact (Hcode eq_refl)|].
  split; [exact Hbody | exact Hnext].
Defined.

Lemma C5_witness :
  exists σ,
    @ServeHTTP go122 (NewStaticMiddleware (staticConfig go122 mockFS "static" 0 false))
      nextHandler fresh (GET "/static/testfile.css") = Some σ
    /\ file_server_calls (calls σ)
       = [(subFS mockFS "static", fresh, GET "/testfile.css")].
Proof.
  destruct (@C5_delegation go122
              (staticConfig go122 mockFS "static" 0 false)
              nextHandler fresh (GET "/static/testfile.css")
              (subFS mockFS "static") eq_refl eq_refl)
    as [σ [Hσ [_ [Hd _]]]].
  exists σ. split; [exact Hσ|].
  destruct (Hd eq_refl) as [r' [Hcalls [_ [Hpath [Hmeth [Hq _]]]]]].
  rewrite Hcalls. f_equal. f_equal.
  assert (Hraw : r' = stripped "/static" (GET "/static/testfile.css")).
  { pose proof (@ServeHTTP_matched go122
                  (staticConfig go122 mockFS "static" 0 false)
                  nextHandler fresh (GET "/static/testfile.css") eq_refl) as Hm.
    rewrite Hσ in Hm. injection Hm as ->. cbn in Hcalls.
    injection Hcalls as <-. reflexivity. }
  rewrite Hraw. reflexivity.
Defined.

Lemma C3_witness :
  (exists σ,
     @ServeHTTP go122
       (NewStaticMiddleware (staticConfig go122 mockFS "static" (365 * 24 * Hour) true))
       nextHandler fresh (GET "/static/testfile.css") = Some σ
     /\ Header (resp σ) !! "Cache-Control" = Some ["public, max-age=31536000"])
  /\ (exists σ,
        @ServeHTTP go122
          (NewStaticMiddleware (staticConfig go122 mockFS "static" 0 true))
          nextHandler fresh (GET "/static/testfile.css") = Some σ
        /\ Header (resp σ) !! "Cache-Control" = None).
Proof.
  split.
  - destruct (@C3_cache_control go122
                (staticConfig go122 mockFS "static" (365 * 24 * Hour) true)
                nextHandler fresh (GET "/static/testfile.css") eq_refl)
      as [σ [Hσ [Hpos [Hsec _]]]].
    exists σ. split; [exact Hσ|].
    rewrite (Hpos (subFS mockFS "static")).
    + destruct (Hsec ltac:(split; [reflexivity | vm_compute; discriminate]))
        as [_ [Hwhole _]].
      rewrite (Hwhole eq_refl). reflexivity.
    + reflexivity.
    + reflexivity.
    + intros w' r' _. apply FileServer_keeps_cache_control.
    + pose proof (@ServeHTTP_matched go122
                    (staticConfig go122 mockFS "static" (365 * 24 * Hour) true)
                    nextHandler fresh (GET "/static/testfile.css") eq_refl) as Hm.
      rewrite Hσ in Hm. injection Hm as ->. reflexivity.
  - destruct (@C3_cache_control go122
                (staticConfig go122 mockFS "static" 0 true)
                nextHandler fresh (GET "/static/testfile.css") eq_refl)
      as [σ [Hσ [_ [_ Hzero]]]].
    exists σ. split; [exact Hσ|].
    apply Hzero.
    + vm_compute. discriminate.
    + reflexivity.
    + intros fsys w' r' Hw'.
      exact (eq_trans (FileServer_keeps_cache_control fsys w' r') Hw').
Defined.

Lemma C9_witness :
  (exists σ,
     @ServeHTTP go122
       (NewStaticMiddleware (staticConfig go122 mockFS "static" Hour false))
       nextHandler fresh (GET "/static/testfile.txt") = Some σ
     /\ Header (resp σ) !! "Cache-Control" = Some ["public, max-age=3600"])
  /\ (exists σ,
        @ServeHTTP go122
          (NewStaticMiddleware (staticConfig go122 mockFS "./static" Hour false))
          nextHandler fresh (GET "/static/testfile.css") = Some σ
        /\ Header (resp σ) !! "Cache-Control" = None
        /\ Code (resp σ) = Some StatusInternalServerError).
Proof.
  split.
  - destruct (@C9_header_before_delegation go122
                (staticConfig go122 mockFS "static" Hour false)
                nextHandler fresh (GET "/static/testfile.txt") eq_refl)
      as [σ [Hσ [Hrooted _]]].
    exists σ. split; [exact Hσ|].
    destruct (Hrooted (subFS mockFS "static") eq_refl eq_refl) as [_ [_ Hkeep]].
    rewrite Hkeep.
    + vm_compute. reflexivity.
    + intros w' r'. apply FileServer_keeps_cache_control.
  - destruct (@C9_header_before_delegation go122
                (staticConfig go122 mockFS "./static" Hour false)
                nextHandler fresh (GET "/static/testfile.css") eq_refl)
      as [σ [Hσ [_ Hfail]]].
    exists σ. split; [exact Hσ|].
    destruct (Hfail (PathError "sub" "./static" fs_ErrInvalid) eq_refl)
      as [Hhdr Hcode].
    split; [rewrite Hhdr; reflexivity | exact (Hcode eq_refl)].
Defined.

(** C3 as it is stated fails: a duration of 16777216.999999999 seconds is
    16777216 whole seconds, and the header says max-age=16777217, since
    the sum [float64(sec) + float64(nsec)/1e9] rounds to 16777217. *)
Lemma C3_counterexample :
  0 < 16777216999999999 <= math_MaxInt64
  /\ Z.quot 16777216999999999 Second = 16777216
  /\ (fun σ => (Code (resp σ), Header (resp σ) !! "Cache-Control"))
       <$> @ServeHTTP go122
             (NewStaticMiddleware
                (staticConfig go122 mockFS "static" 16777216999999999 false))
             nextHandler fresh (GET "/static/testfile.css")
     = Some (Some StatusOK, Some ["public, max-age=16777217"])
  /\ "public, max-age=16777217"
     <> "public, max-age=" ++ fmt_d (Z.quot 16777216999999999 Second).
Proof.
  split; [split; [reflexivity | vm_compute; discriminate]|].
  split; [reflexivity|].
  split; [vm_compute; reflexivity | vm_compute; discriminate].
Qed.

(** C4 as it is stated fails: with the root ./static the message of the
    error is "sub ./static: invalid argument", and the body of the 500
    response is that message and a line feed. *)
Lemma C4_counterexample :
  @fs_Sub go122 mockFS "./static" = inr (PathError "sub" "./static" fs_ErrInvalid)
  /\ Error (PathError "sub" "./static" fs_ErrInvalid)
     = "sub ./static: invalid argument"
  /\ (fun σ => (Code (resp σ), Body (resp σ)))
       <$> @ServeHTTP go122
             (NewStaticMiddleware (staticConfig go122 mockFS "./static" 0 true))
             nextHandler fresh (GET "/static/testfile.css")
     = Some (Some StatusInternalServerError,
             "sub ./static: invalid argument" ++ newline)
  /\ "sub ./static: invalid argument" ++ newline
     <> Error (PathError "sub" "./static" fs_ErrInvalid).
Proof.
  split; [reflexivity|]. split; [reflexivity|].
  split; [vm_compute; reflexivity | vm_compute; discriminate].
Qed.

(** C5 as it is stated fails: the request [escaped] has the prefix, the
    file store is rooted and the file is there, and the file server is
    not called at all: [http.StripPrefix] answers 404. *)
Lemma C5_counterexample :
  strings_HasPrefix (Path (url escaped)) "/static" = true
  /\ @fs_Sub go122 mockFS "static" = inl (subFS mockFS "static")
  /\ found (subFS mockFS "static") (stripped "/static" escaped) = true
  /\ (fun σ => (Code (resp σ), file_server_calls (calls σ)))
       <$> @ServeHTTP go122
             (NewStaticMiddleware (staticConfig go122 mockFS "static" 0 false))
             nextHandler fresh escaped
     = Some (Some StatusNotFound, []).
Proof.
  split; [reflexivity|]. split; [reflexivity|].
  split; vm_compute; reflexivity.
Qed.

(** C9 as it is stated fails where the file server clears the header on
    an error, as the one of Go 1.23 does: with a [cacheDuration] of an
    hour and the file store rooted, the 404 for a missing file has no
    Cache-Control header. *)
Lemma C9_counterexample :
  strings_HasPrefix "/static/testfile.txt" "/static" = true
  /\ 0 < Hour
  /\ @fs_Sub go123 mockFS "static" = inl (subFS mockFS "static")
  /\ (fun σ => (Code (resp σ), Header (resp σ) !! "Cache-Control",
                length (file_server_calls (calls σ))))
       <$> @ServeHTTP go123
             (NewStaticMiddleware (staticConfig go123 mockFS "static" Hour false))
             nextHandler fresh (GET "/static/testfile.txt")
     = Some (Some StatusNotFound, None, 1%nat).
Proof.
  split; [reflexivity|]. split; [reflexivity|]. split; [reflexivity|].
  vm_compute. reflexivity.
Qed.

End OnTestHost.

(** * More of the code *)

Section More.
Context {host : Host}.
Implicit Types (c : Config) (next : ExtHandler) (w : ResponseWriter) (r : Request).
Implicit Types (tr : list Event).

Ltac run_M :=
  repeat (unfold mbind, M_bind, mret, M_ret, get_self, emit, on_w,
            next_ServeHTTP, Logger_Printf, panic; cbn).

Ltac read_trace :=
  rewrite ?next_calls_app, ?file_server_calls_app, ?sub_calls_app;
  repeat match goal with
         | |- context [next_calls (debug_line ?c ?f ?v)] =>
             rewrite (proj1 (debug_line_calls c f v))
         | |- context [file_server_calls (debug_line ?c ?f ?v)] =>
             rewrite (proj1 (proj2 (debug_line_calls c f v)))
         | |- context [sub_calls (debug_line ?c ?f ?v)] =>
             rewrite (proj2 (proj2 (debug_line_calls c f v)))
         end;
  cbn [next_calls file_server_calls sub_calls app].

#[local] Arguments strings_HasPrefix : simpl never.
#[local] Arguments strings_TrimPrefix : simpl never.
#[local] Arguments http_Error : simpl never.
#[local] Arguments http_StripPrefix : simpl never.
#[local] Arguments Header_Set : simpl never.
#[local] Arguments cacheControlValue : simpl never.
#[local] Arguments Z.ltb : simpl never.

Lemma printf_calls_app tr1 tr2 :
  printf_calls (tr1 ++ tr2) = (printf_calls tr1 ++ printf_calls tr2)%list.
Proof.
  induction tr1 as [|ev tr1 IH]; [reflexivity|].
  destruct ev; cbn; rewrite IH; reflexivity.
Qed.

Lemma downstream_app tr1 tr2 :
  downstream (tr1 ++ tr2) = (downstream tr1 ++ downstream tr2)%list.
Proof. unfold downstream. apply filter_app. Qed.

Lemma downstream_debug_line c format v : downstream (debug_line c format v) = [].
Proof. unfold debug_line. destruct (Debug c); reflexivity. Qed.

Lemma printf_calls_debug_line c format v :
  printf_calls (debug_line c format v)
  = if Debug c then [(logger_of c, format, v)] else [].
Proof. unfold debug_line. destruct (Debug c); reflexivity. Qed.

(** A request through a middleware of the constructor: the world it
    leaves, in every case. *)
Lemma ServeHTTP_outcome c next w r :
  exists σ, ServeHTTP (NewStaticMiddleware c) next w r = Some σ
    /\ σ =
       if strings_HasPrefix (Path (url r)) (StaticFilePrefix c)
       then
         match fs_Sub (StaticFS c) (StaticRoot c) with
         | inr err =>
             mkWorld (NewStaticMiddleware c)
               (http_Error w (Error err) StatusInternalServerError)
               (debug_line c "Serving static file: %s" [Path (url r)]
                  ++ [Sub (StaticFS c) (StaticRoot c)]
                  ++ debug_line c "Error creating sub-filesystem: %s" [Error err])
         | inl staticFS =>
             if delegated (StaticFilePrefix c) r
             then mkWorld (NewStaticMiddleware c)
                    (http_FileServer staticFS (with_cache_control c w)
                       (stripped (StaticFilePrefix c) r))
                    (debug_line c "Serving static file: %s" [Path (url r)]
                       ++ [Sub (StaticFS c) (StaticRoot c);
                           FileServerServeHTTP staticFS (with_cache_control c w)
                             (stripped (StaticFilePrefix c) r)])
             else mkWorld (NewStaticMiddleware c)
                    (http_NotFound (with_cache_control c w) r)
                    (debug_line c "Serving static file: %s" [Path (url r)]
                       ++ [Sub (StaticFS c) (StaticRoot c)])
         end
       else
         mkWorld (NewStaticMiddleware c) (next w r)
           (debug_line c "Passing request to next handler: %s" [Path (url r)]
              ++ [NextServeHTTP w r]).
Proof.
  destruct (strings_HasPrefix (Path (url r)) (StaticFilePrefix c)) eqn:H.
  - rewrite (ServeHTTP_matched _ _ _ _ H). eexists. split; reflexivity.
  - rewrite (ServeHTTP_unmatched _ _ _ _ H). eexists. split; reflexivity.
Qed.


(** X2. The log lines of a request, with debugging on: one for a request
    outside of the prefix; one for a request with the prefix, and a second
    one if the file store cannot be rooted; all to the logger of the
    configuration, or the default one.  With debugging off no logger is
    ever called, a given one no more than none. *)
Theorem X2_log_lines c next w r :
  exists σ, ServeHTTP (NewStaticMiddleware c) next w r = Some σ
    /\ printf_calls (calls σ) =
       if Debug c
       then
         if strings_HasPrefix (Path (url r)) (StaticFilePrefix c)
         then
           (logger_of c, "Serving static file: %s", [Path (url r)])
             :: match fs_Sub (StaticFS c) (StaticRoot c) with
                | inr err =>
                    [(logger_of c, "Error creating sub-filesystem: %s", [Error err])]
                | inl _ => []
                end
         else [(logger_of c, "Passing request to next handler: %s", [Path (url r)])]
       else [].
Proof.
  destruct (ServeHTTP_outcome c next w r) as [σ [Hσ ->]].
  eexists. split; [exact Hσ|].
  destruct (strings_HasPrefix (Path (url r)) (StaticFilePrefix c));
    [destruct (fs_Sub (StaticFS c) (StaticRoot c)) as [staticFS|err];
     [destruct (delegated (StaticFilePrefix c) r)|]|];
    cbn [calls]; rewrite ?printf_calls_app, ?printf_calls_debug_line;
    destruct (Debug c); reflexivity.
Qed.

(** X3. Debugging and the logger have no part in the answer: two
    configurations with the same file store, root, prefix and cache
    duration give a request the same response and the same calls of
    [fs.Sub], of the file server and of the next handler. *)
Theorem X3_debug_inert c1 c2 next w r :
  StaticFS c1 = StaticFS c2 ->
  StaticRoot c1 = StaticRoot c2 ->
  StaticFilePrefix c1 = StaticFilePrefix c2 ->
  CacheDuration c1 = CacheDuration c2 ->
  exists σ1 σ2,
    ServeHTTP (NewStaticMiddleware c1) next w r = Some σ1
    /\ ServeHTTP (NewStaticMiddleware c2) next w r = Some σ2
    /\ resp σ1 = resp σ2
    /\ downstream (calls σ1) = downstream (calls σ2).
Proof.
  intros Hfs Hroot Hprefix Hd.
  destruct (ServeHTTP_outcome c1 next w r) as [σ1 [Hσ1 E1]].
  destruct (ServeHTTP_outcome c2 next w r) as [σ2 [Hσ2 E2]].
  exists σ1, σ2. split; [exact Hσ1|]. split; [exact Hσ2|].
  subst σ1 σ2. unfold with_cache_control. rewrite Hfs, Hroot, Hprefix, Hd.
  destruct (strings_HasPrefix (Path (url r)) (StaticFilePrefix c2));
    [destruct (fs_Sub (StaticFS c2) (StaticRoot c2)) as [staticFS|err];
     [destruct (delegated (StaticFilePrefix c2) r)|]|];
    cbn [resp calls]; rewrite ?downstream_app, ?downstream_debug_line;
    split; reflexivity.
Qed.

(** X4. Package [static] answers as [static.go] does: for every
    configuration and request, [static.Handler(config)(next)] leaves the
    response and the trace that [NewStaticMiddleware(config).Handler()(next)]
    leaves, the fields taken under their other names. *)
Theorem X4_package_static (c : static.Config) next w r :
  (fun σ => (resp σ, calls σ)) <$> static.Handler c next w r
  = (fun σ => (resp σ, calls σ))
      <$> ServeHTTP (NewStaticMiddleware (of_static c)) next w r.
Proof.
  destruct (ServeHTTP_outcome (of_static c) next w r) as [σ [Hσ E]].
  rewrite Hσ, E. clear Hσ E σ.
  destruct c as [fsys root prefix d dbg lg].
  unfold static.Handler, static.handler, static.serveStaticFiles,
    static.m_config, call_fs_Sub, of_static, with_cache_control,
    debug_line, logger_of.
  cbn [StaticFS StaticRoot StaticFilePrefix CacheDuration Debug Logger_
       static.Fs static.Root static.FilePrefix static.CacheDuration
       static.Debug static.Logger_].
  destruct (strings_HasPrefix (Path (url r)) prefix) eqn:H.
  - destruct (fs_Sub fsys root) as [staticFS|err] eqn:Hsub;
      destruct dbg, lg; run_M; rewrite H; run_M; rewrite Hsub; run_M;
      try reflexivity;
      destruct (0 <? d); run_M;
      rewrite (StripPrefix_fileServer _ _ _ _ H);
      destruct (delegated prefix r); reflexivity.
  - destruct dbg, lg; run_M; rewrite H; run_M; reflexivity.
Qed.

(** X5. The first [static.go] is the later one with no cache duration:
    with [CacheDuration] zero or below, the later handler gives every
    request the response of the first, with the same calls of [fs.Sub],
    of the file server and of the next handler; its trace is the trace of
    the first behind the one log line that the later handler writes
    itself, which is none with debugging off. *)
Theorem X5_first_version (c : V1.Config) (d : Duration) next w r :
  d <= 0 ->
  exists σ1 σ,
    V1.ServeHTTP (V1.NewStaticMiddleware c) next w r = Some σ1
    /\ ServeHTTP (NewStaticMiddleware (with_CacheDuration c d)) next w r = Some σ
    /\ resp σ1 = resp σ
    /\ downstream (calls σ1) = downstream (calls σ)
    /\ calls σ
       = (debug_line (with_CacheDuration c d)
            (if strings_HasPrefix (Path (url r)) (V1.StaticFilePrefix c)
             then "Serving static file: %s"
             else "Passing request to next handler: %s")
            [Path (url r)]
          ++ calls σ1)%list.
Proof.
  intros Hd.
  destruct (ServeHTTP_outcome (with_CacheDuration c d) next w r) as [σ [Hσ E]].
  rewrite Hσ.
  assert (Hw : with_cache_control (with_CacheDuration c d) w = w)
    by (apply with_cache_control_nonpos; exact Hd).
  rewrite Hw in E. clear Hw Hσ.
  destruct c as [fsys root prefix dbg lg].
  unfold V1.ServeHTTP, V1.Handler, V1.serveStaticFiles, V1.m_config,
    V1.NewStaticMiddleware, call_fs_Sub.
  unfold with_CacheDuration, debug_line, logger_of in E.
  cbn [StaticFS StaticRoot StaticFilePrefix CacheDuration Debug Logger_
       V1.StaticFS V1.StaticRoot V1.StaticFilePrefix V1.Debug V1.Logger_] in E |- *.
  destruct (strings_HasPrefix (Path (url r)) prefix) eqn:H.
  - destruct (fs_Sub fsys root) as [staticFS|err] eqn:Hsub.
    + destruct dbg, lg; run_M; rewrite H; run_M; rewrite Hsub; run_M;
        rewrite (StripPrefix_fileServer _ _ _ _ H);
        destruct (delegated prefix r); run_M;
        eexists; exists σ; (split; [reflexivity|]); (split; [reflexivity|]);
        subst σ; cbn; repeat split; try reflexivity; discriminate.
    + destruct dbg, lg; run_M; rewrite H; run_M; rewrite Hsub; run_M;
        eexists; exists σ; (split; [reflexivity|]); (split; [reflexivity|]);
        subst σ; cbn; repeat split; try reflexivity; discriminate.
  - destruct dbg, lg; run_M; rewrite H; run_M;
      eexists; exists σ; (split; [reflexivity|]); (split; [reflexivity|]);
      subst σ; cbn; repeat split; try reflexivity; discriminate.
Qed.


Lemma HasPrefix_trans (s p q : string) :
  strings_HasPrefix s p = true -> strings_HasPrefix p q = true ->
  strings_HasPrefix s q = true.
Proof.
  intros H1 H2. apply HasPrefix_spec in H1 as [t ->].
  apply HasPrefix_spec in H2 as [u ->]. apply HasPrefix_spec.
  exists (u ++ t).
  clear. induction q as [|a q IH]; [reflexivity|].
  change (String a ((q ++ u) ++ t) = String a (q ++ u ++ t)).
  f_equal. exact IH.
Qed.

(** X6. Before it hands a request to the file server the middleware
    touches the Cache-Control header and nothing else: status, body and
    every other header are as they came.  With a positive cache duration
    the header has the one value of the middleware, whatever values it had
    before; otherwise it is as it came too. *)
Theorem X6_only_cache_control c next w r :
  exists σ, ServeHTTP (NewStaticMiddleware c) next w r = Some σ
    /\ forall fsys w' r',
         In (fsys, w', r') (file_server_calls (calls σ)) ->
         Code w' = Code w
         /\ Body w' = Body w
         /\ (forall key, key <> "Cache-Control" -> Header w' !! key = Header w !! key)
         /\ Header w' !! "Cache-Control"
            = if 0 <? CacheDuration c
              then Some [cacheControlValue (CacheDuration c)]
              else Header w !! "Cache-Control".
Proof.
  destruct (ServeHTTP_outcome c next w r) as [σ [Hσ ->]].
  eexists. split; [exact Hσ|]. intros fsys w' r'.
  destruct (strings_HasPrefix (Path (url r)) (StaticFilePrefix c));
    [destruct (fs_Sub (StaticFS c) (StaticRoot c)) as [staticFS|err];
     [destruct (delegated (StaticFilePrefix c) r)|]|];
    cbn [calls]; read_trace; intros Hin; try (now destruct Hin).
  destruct Hin as [Heq|[]]. inversion Heq; subst. unfold with_cache_control.
  destruct (0 <? CacheDuration c); cbn.
  - split; [reflexivity|]. split; [reflexivity|]. split.
    + intros key Hkey. unfold Header_Set. cbn.
      apply lookup_insert_ne. congruence.
    + unfold Header_Set. cbn. apply lookup_insert_eq.
  - repeat split; reflexivity.
Qed.

(** X7. A positive cache duration below one second still sets the header,
    with max-age=0: the test is on the duration, the value is in whole
    seconds. *)
Theorem X7_below_one_second c next w r staticFS :
  0 < CacheDuration c < Second ->
  strings_HasPrefix (Path (url r)) (StaticFilePrefix c) = true ->
  fs_Sub (StaticFS c) (StaticRoot c) = inl staticFS ->
  delegated (StaticFilePrefix c) r = true ->
  exists σ w' r', ServeHTTP (NewStaticMiddleware c) next w r = Some σ
    /\ file_server_calls (calls σ) = [(staticFS, w', r')]
    /\ Header w' !! "Cache-Control" = Some ["public, max-age=0"].
Proof.
  intros Hd H Hsub Hdel.
  rewrite (ServeHTTP_matched _ _ _ _ H), Hsub, Hdel.
  eexists. eexists. eexists. split; [reflexivity|]. cbn [calls]. read_trace.
  split; [reflexivity|].
  rewrite Header_with_cache_control_pos by lia.
  unfold cacheControlValue.
  destruct (Seconds_bracket (CacheDuration c)) as [_ He].
  { unfold Second, Nanosecond, math_MaxInt64 in *. lia. }
  rewrite He.
  - rewrite Z.quot_small by lia. reflexivity.
  - unfold Second, Nanosecond in *. change (2 ^ 23) with 8388608. lia.
Qed.

(** X8. Two middlewares, the one wrapping the other: a request with the
    prefix of the outer one gets the answer of the outer one, whatever is
    behind it; a request with the prefix of the inner one only gets the
    answer of the inner one, whatever is behind that; any other request
    gets the answer of the next handler. *)
Theorem X8_chain c1 c2 next w r :
  exists σ,
    ServeHTTP (NewStaticMiddleware c1) (wrap (NewStaticMiddleware c2) next) w r
      = Some σ
    /\ (strings_HasPrefix (Path (url r)) (StaticFilePrefix c1) = true ->
        forall next', ServeHTTP (NewStaticMiddleware c1) next' w r = Some σ)
    /\ (strings_HasPrefix (Path (url r)) (StaticFilePrefix c1) = false ->
        strings_HasPrefix (Path (url r)) (StaticFilePrefix c2) = true ->
        forall next', exists σ2,
          ServeHTTP (NewStaticMiddleware c2) next' w r = Some σ2
          /\ resp σ = resp σ2)
    /\ (strings_HasPrefix (Path (url r)) (StaticFilePrefix c1) = false ->
        strings_HasPrefix (Path (url r)) (StaticFilePrefix c2) = false ->
        resp σ = next w r).
Proof.
  destruct (strings_HasPrefix (Path (url r)) (StaticFilePrefix c1)) eqn:H1.
  - rewrite (ServeHTTP_matched _ _ _ _ H1). eexists. split; [reflexivity|].
    split; [|split; discriminate].
    intros _ next'. rewrite (ServeHTTP_matched _ _ _ _ H1). reflexivity.
  - rewrite (ServeHTTP_unmatched _ _ _ _ H1). eexists. split; [reflexivity|].
    split; [discriminate|]. cbn [resp]. unfold wrap. split.
    + intros _ H2 next'. rewrite !(ServeHTTP_matched _ _ _ _ H2).
      eexists. split; reflexivity.
    + intros _ H2. rewrite (ServeHTTP_unmatched _ _ _ _ H2). reflexivity.
Qed.

(** X9. A middleware behind one with a shorter prefix of its own prefix is
    never reached by a request it would take: the outer one takes it. *)
Theorem X9_shadowed c1 c2 next w r :
  strings_HasPrefix (StaticFilePrefix c2) (StaticFilePrefix c1) = true ->
  strings_HasPrefix (Path (url r)) (StaticFilePrefix c2) = true ->
  strings_HasPrefix (Path (url r)) (StaticFilePrefix c1) = true
  /\ forall next',
       ServeHTTP (NewStaticMiddleware c1) (wrap (NewStaticMiddleware c2) next) w r
       = ServeHTTP (NewStaticMiddleware c1) next' w r.
Proof.
  intros H21 H2.
  assert (H1 := HasPrefix_trans _ _ _ H2 H21).
  split; [exact H1|]. intros next'.
  rewrite !(ServeHTTP_matched _ _ _ _ H1). reflexivity.
Qed.

(** X10. The file store is rooted anew at every request with the prefix,
    and at no other: over a sequence of requests the calls of [fs.Sub] are
    as many as the requests with the prefix, each on the file store and
    the root of the configuration. *)
Theorem X10_rooted_at_every_request c next reqs :
  exists out,
    serveAll (NewStaticMiddleware c) next reqs = Some (NewStaticMiddleware c, out)
    /\ concat (map (fun o => sub_calls (snd o)) out)
       = map (fun _ => (StaticFS c, StaticRoot c))
             (filter (fun wr => matched c wr = true) reqs).
Proof.
  induction reqs as [|[w r] reqs IH].
  - exists []. split; reflexivity.
  - destruct IH as [out [Hall Hsub]]. cbn [serveAll].
    destruct (strings_HasPrefix (Path (url r)) (StaticFilePrefix c)) eqn:H.
    + rewrite (ServeHTTP_matched _ _ _ _ H).
      destruct (fs_Sub (StaticFS c) (StaticRoot c));
        [destruct (delegated (StaticFilePrefix c) r)|];
        cbn [self resp calls]; rewrite Hall;
        eexists; (split; [reflexivity|]);
        cbn [map concat snd]; rewrite Hsub, filter_cons;
        rewrite decide_True by exact H;
        read_trace; reflexivity.
    + rewrite (ServeHTTP_unmatched _ _ _ _ H).
      cbn [self resp calls]. rewrite Hall.
      eexists. split; [reflexivity|].
      cbn [map concat snd]. rewrite Hsub, filter_cons.
      rewrite decide_False
        by (unfold matched; cbn [snd]; rewrite H; discriminate).
      read_trace. reflexivity.
Qed.

End More.

(** ** More of the code, on the host of the tests *)

Section MoreOnTestHost.
Import TestHost.






Lemma X3_witness :
  exists σ1 σ2,
    @ServeHTTP go122
      (NewStaticMiddleware (staticConfig go122 mockFS "static" Hour true))
      nextHandler fresh (GET "/static/testfile.css") = Some σ1
    /\ @ServeHTTP go122
         (NewStaticMiddleware
            (@mkConfig go122 mockFS "static" "/static" Hour false
               (Some (customLogger 7))))
         nextHandler fresh (GET "/static/testfile.css") = Some σ2
    /\ resp σ1 = resp σ2
    /\ downstream (calls σ1) = downstream (calls σ2).
Proof.
  exact (@X3_debug_inert go122
           (staticConfig go122 mockFS "static" Hour true)
           (@mkConfig go122 mockFS "static" "/static" Hour false
              (Some (customLogger 7)))
           nextHandler fresh (GET "/static/testfile.css")
           eq_refl eq_refl eq_refl eq_refl).
Defined.

Lemma X5_witness :
  exists σ1 σ,
    @V1.ServeHTTP go122
      (V1.NewStaticMiddleware (@V1.mkConfig go122 mockFS "static" "/static" true None))
      nextHandler fresh (GET "/static/testfile.css") = Some σ1
    /\ @ServeHTTP go122
         (NewStaticMiddleware (staticConfig go122 mockFS "static" 0 true))
         nextHandler fresh (GET "/static/testfile.css") = Some σ
    /\ resp σ1 = resp σ.
Proof.
  destruct (@X5_first_version go122
              (@V1.mkConfig go122 mockFS "static" "/static" true None) 0
              nextHandler fresh (GET "/static/testfile.css")
              ltac:(vm_compute; discriminate))
    as [σ1 [σ [H1 [H2 [Hresp _]]]]].
  exists σ1, σ. split; [exact H1|]. split; [exact H2 | exact Hresp].
Defined.

Lemma X7_witness :
  exists σ w' r',
    @ServeHTTP go122
      (NewStaticMiddleware (staticConfig go122 mockFS "static" 500000000 false))
      nextHandler fresh (GET "/static/testfile.css") = Some σ
    /\ file_server_calls (calls σ) = [(subFS mockFS "static", w', r')]
    /\ Header w' !! "Cache-Control" = Some ["public, max-age=0"].
Proof.
  exact (@X7_below_one_second go122
           (staticConfig go122 mockFS "static" 500000000 false)
           nextHandler fresh (GET "/static/testfile.css")
           (subFS mockFS "static")
           (conj eq_refl eq_refl) eq_refl eq_refl eq_refl).
Defined.

Lemma X9_witness :
  strings_HasPrefix "/static/css/site.css" "/static" = true
  /\ forall next',
       @ServeHTTP go122
         (NewStaticMiddleware (staticConfig go122 mockFS "static" 0 false))
         (wrap (NewStaticMiddleware
                  (@mkConfig go122 mockFS "static/css" "/static/css" 0 false None))
               nextHandler)
         fresh (GET "/static/css/site.css")
       = @ServeHTTP go122
           (NewStaticMiddleware (staticConfig go122 mockFS "static" 0 false))
           next' fresh (GET "/static/css/site.css").
Proof.
  exact (@X9_shadowed go122
           (staticConfig go122 mockFS "static" 0 false)
           (@mkConfig go122 mockFS "static/css" "/static/css" 0 false None)
           nextHandler fresh (GET "/static/css/site.css") eq_refl eq_refl).
Defined.

Lemma X6_witness :
  exists σ w' r',
    @ServeHTTP go122
      (NewStaticMiddleware (staticConfig go122 mockFS "static" Hour false))
      nextHandler fresh (GET "/static/testfile.css") = Some σ
    /\ file_server_calls (calls σ) = [(subFS mockFS "static", w', r')]
    /\ Code w' = None /\ Body w' = ""
    /\ Header w' !! "Content-Type" = None
    /\ Header w' !! "Cache-Control" = Some ["public, max-age=3600"].
Proof.
  destruct (@X6_only_cache_control go122
              (staticConfig go122 mockFS "static" Hour false)
              nextHandler fresh (GET "/static/testfile.css"))
    as [σ [Hσ Hall]].
  pose proof (@ServeHTTP_matched go122
                (staticConfig go122 mockFS "static" Hour false)
                nextHandler fresh (GET "/static/testfile.css") eq_refl) as Hm.
  rewrite Hσ in Hm. injection Hm as Hm.
  assert (Hcalls : file_server_calls (calls σ)
                   = [(subFS mockFS "static",
                       with_cache_control
                         (staticConfig go122 mockFS "static" Hour false) fresh,
                       stripped "/static" (GET "/static/testfile.css"))])
    by (rewrite Hm; reflexivity).
  destruct (Hall _ _ _ ltac:(rewrite Hcalls; left; reflexivity))
    as [Hcode [Hbody [Hother Hcc]]].
  eexists σ, _, _. split; [exact Hσ|]. split; [exact Hcalls|].
  split; [exact Hcode|]. split; [exact Hbody|].
  split; [exact (Hother "Content-Type" ltac:(discriminate))|].
  rewrite Hcc. vm_compute. reflexivity.
Defined.

Lemma X8_witness :
  exists σ σ2,
    @ServeHTTP go122
      (NewStaticMiddleware (staticConfig go122 mockFS "static" 0 false))
      (wrap (NewStaticMiddleware
               (@mkConfig go122 mockFS "static" "/assets" 0 false None))
            nextHandler)
      fresh (GET "/assets/testfile.css") = Some σ
    /\ @ServeHTTP go122
         (NewStaticMiddleware
            (@mkConfig go122 mockFS "static" "/assets" 0 false None))
         nextHandler fresh (GET "/assets/testfile.css") = Some σ2
    /\ resp σ = resp σ2.
Proof.
  destruct (@X8_chain go122
              (staticConfig go122 mockFS "static" 0 false)
              (@mkConfig go122 mockFS "static" "/assets" 0 false None)
              nextHandler fresh (GET "/assets/testfile.css"))
    as [σ [Hσ [_ [Hinner _]]]].
  destruct (Hinner eq_refl eq_refl nextHandler) as [σ2 [Hσ2 Hresp]].
  exists σ, σ2. split; [exact Hσ|]. split; [exact Hσ2 | exact Hresp].
Defined.


End MoreOnTestHost.
